(** * rocrand_cpp: the C++ facade of rocRAND (library/include/rocrand.hpp)

    A shallow embedding of the header-only wrapper: the [error] exception
    class, the generator handle ([rng_engine], [prng_engine] and the three
    named engines) and the three distribution functors.

    The facade only configures and invokes an external backend (the C API
    of rocrand.h).  The backend is a parameter of the development: an
    arbitrary deterministic function of the calls it has received so far.
    Every backend call is recorded in a trace, so that "which calls were
    issued, with which arguments" is a statement about a list.

    C++ control flow is modelled by three outcomes: a call returns, an
    exception propagates, or the program is terminated (std::terminate). *)

From Stdlib Require Import ZArith List String Bool Lia.
From Stdlib Require Import DecimalString DecimalZ DecimalPos.
From Stdlib Require Import Floats.SpecFloat.
Import ListNotations.

Local Open Scope Z_scope.

(** ** Types of rocrand.h *)

(** [rocrand_status] and [rocrand_rng_type] are C enumerations,
    [rocrand_generator] and [hipStream_t] are opaque pointers. *)
Definition rocrand_status := Z.
Definition rocrand_rng_type := Z.
Definition rocrand_generator := Z.
Definition hipStream_t := Z.

(** Device addresses of output buffers and [size_t] counts. *)
Definition pointer := Z.
Definition size_t := Z.

(** [unsigned long long]: the facade never computes with seeds or
    offsets, it only compares an offset with zero and forwards both. *)
Definition seed_type := Z.
Definition offset_type := Z.

(** Values of [float] and [double]: IEEE 754 data.  The facade only
    stores, copies, forwards and compares them with [==]. *)
Definition real := spec_float.

(** ** class error *)

Record error : Type := mk_error
  { m_error : rocrand_status;
    m_error_string : string }.

(** [s << error] on an unscoped enumeration prints the promoted integer
    in decimal. *)
Definition stream_insert_int (z : Z) : string :=
  NilZero.string_of_int (Z.to_int z).

(** [error::to_string]: the switch has only the default label. *)
Definition to_string (e : rocrand_status) : string :=
  ("Unknown rocRAND Error (" ++ stream_insert_int e ++ ")")%string.

(** [error::error(error_type)] *)
Definition error_ctor (e : rocrand_status) : error :=
  {| m_error := e; m_error_string := to_string e |}.

Definition error_code (e : error) : rocrand_status := m_error e.
Definition error_string (e : error) : string := m_error_string e.
(** [what()] returns [m_error_string.c_str()]: the same characters. *)
Definition what (e : error) : string := m_error_string e.

(** ** Backend calls and their trace *)

(** One constructor per entry point of rocrand.h the facade uses; an
    event keeps the arguments of the call and the status it returned
    (and, for create, the handle written through the out-pointer). *)
Inductive event : Type :=
| ev_create_generator (rng_type : rocrand_rng_type)
    (generator : rocrand_generator) (status : rocrand_status)
| ev_destroy_generator (generator : rocrand_generator)
    (status : rocrand_status)
| ev_set_stream (generator : rocrand_generator) (stream : hipStream_t)
    (status : rocrand_status)
| ev_set_seed (generator : rocrand_generator) (seed : seed_type)
    (status : rocrand_status)
| ev_set_offset (generator : rocrand_generator) (offset : offset_type)
    (status : rocrand_status)
| ev_generate (generator : rocrand_generator) (output : pointer)
    (n : size_t) (status : rocrand_status)
| ev_generate_uniform (generator : rocrand_generator) (output : pointer)
    (n : size_t) (status : rocrand_status)
| ev_generate_uniform_double (generator : rocrand_generator)
    (output : pointer) (n : size_t) (status : rocrand_status)
| ev_generate_normal (generator : rocrand_generator) (output : pointer)
    (n : size_t) (mean stddev : real) (status : rocrand_status)
| ev_generate_normal_double (generator : rocrand_generator)
    (output : pointer) (n : size_t) (mean stddev : real)
    (status : rocrand_status).

(** Chronological: the latest call is the last element. *)
Definition trace := list event.

Definition ev_status (e : event) : rocrand_status :=
  match e with
  | ev_create_generator _ _ s
  | ev_destroy_generator _ s
  | ev_set_stream _ _ s
  | ev_set_seed _ _ s
  | ev_set_offset _ _ s
  | ev_generate _ _ _ s
  | ev_generate_uniform _ _ _ s
  | ev_generate_uniform_double _ _ _ s
  | ev_generate_normal _ _ _ _ _ s
  | ev_generate_normal_double _ _ _ _ _ s => s
  end.

(** The part of rocrand.h this header relies on: the success status, the
    identifiers and default seeds of the three pseudorandom generators,
    and the entry points.  An entry point answers as a function of the
    calls made before it. *)
Record rocrand_h : Type :=
  { ROCRAND_STATUS_SUCCESS : rocrand_status;
    ROCRAND_RNG_PSEUDO_PHILOX4_32_10 : rocrand_rng_type;
    ROCRAND_RNG_PSEUDO_XORWOW : rocrand_rng_type;
    ROCRAND_RNG_PSEUDO_MRG32K3A : rocrand_rng_type;
    ROCRAND_PHILOX4x32_DEFAULT_SEED : seed_type;
    ROCRAND_XORWOW_DEFAULT_SEED : seed_type;
    ROCRAND_MRG32K3A_DEFAULT_SEED : seed_type;
    rocrand_create_generator :
      trace -> rocrand_rng_type -> rocrand_status * rocrand_generator;
    rocrand_destroy_generator :
      trace -> rocrand_generator -> rocrand_status;
    rocrand_set_stream :
      trace -> rocrand_generator -> hipStream_t -> rocrand_status;
    rocrand_set_seed :
      trace -> rocrand_generator -> seed_type -> rocrand_status;
    rocrand_set_offset :
      trace -> rocrand_generator -> offset_type -> rocrand_status;
    rocrand_generate :
      trace -> rocrand_generator -> pointer -> size_t -> rocrand_status;
    rocrand_generate_uniform :
      trace -> rocrand_generator -> pointer -> size_t -> rocrand_status;
    rocrand_generate_uniform_double :
      trace -> rocrand_generator -> pointer -> size_t -> rocrand_status;
    rocrand_generate_normal :
      trace -> rocrand_generator -> pointer -> size_t -> real -> real ->
      rocrand_status;
    rocrand_generate_normal_double :
      trace -> rocrand_generator -> pointer -> size_t -> real -> real ->
      rocrand_status }.

(** ** Control flow: return, throw, terminate *)

Inductive outcome (A : Type) : Type :=
| Returned (a : A)
| Thrown (e : error)
| Terminated.

Arguments Returned {A} a.
Arguments Thrown {A} e.
Arguments Terminated {A}.

Definition M (A : Type) : Type := trace -> outcome A * trace.

Definition ret {A} (a : A) : M A := fun t => (Returned a, t).

Definition throw {A} (e : error) : M A := fun t => (Thrown e, t).

Definition bind {A B} (m : M A) (k : A -> M B) : M B :=
  fun t =>
    match m t with
    | (Returned a, t') => k a t'
    | (Thrown e, t') => (Thrown e, t')
    | (Terminated, t') => (Terminated, t')
    end.

Notation "x <- m ;; k" := (bind m (fun x => k))
  (at level 61, m at next level, right associativity).
Notation "m ;; k" := (bind m (fun _ => k))
  (at level 61, right associativity).

(** A function that is [noexcept]: an exception that leaves its body
    calls std::terminate. *)
Definition noexcept {A} (body : M A) : M A :=
  fun t =>
    match body t with
    | (Thrown _, t') => (Terminated, t')
    | r => r
    end.

(** Stack unwinding out of [body] past a constructed object whose
    destructor is [dtor]: when [body] throws, [dtor] runs and the
    exception goes on; a destructor that does not return then ends the
    program. *)
Definition unwinding {A} (dtor : M unit) (body : M A) : M A :=
  fun t =>
    match body t with
    | (Thrown e, t') =>
        match dtor t' with
        | (Returned _, t'') => (Thrown e, t'')
        | (_, t'') => (Terminated, t'')
        end
    | r => r
    end.

(** The calls a computation adds to the trace. *)
Definition issued {A} (m : M A) (t : trace) : trace :=
  skipn (List.length t) (snd (m t)).

Definition result {A} (m : M A) (t : trace) : outcome A := fst (m t).

(** ** Template arguments *)

(** The types a template argument can name. *)
Inductive cpp_type : Type :=
| t_bool | t_char | t_signed_char | t_unsigned_char
| t_short | t_unsigned_short | t_int | t_unsigned_int
| t_long | t_unsigned_long | t_long_long | t_unsigned_long_long
| t_float | t_double | t_long_double
| t_class (name : string).

Definition cpp_type_eq_dec (a b : cpp_type) : {a = b} + {a <> b}.
Proof. decide equality. apply string_dec. Defined.

(** [std::is_same<A, B>::value] *)
Definition is_same (a b : cpp_type) : bool :=
  if cpp_type_eq_dec a b then true else false.

(** Instantiating a function either gives the function or stops the
    build with the message of the failed [static_assert]. *)
Inductive build (A : Type) : Type :=
| Built (a : A)
| Ill_formed (diagnostic : string).

Arguments Built {A} a.
Arguments Ill_formed {A} diagnostic.

Definition static_assert {A} (cond : bool) (message : string) (a : A)
  : build A :=
  if cond then Built a else Ill_formed message.

(** The two [RealType] arguments the real distributions accept. *)
Inductive real_type : Type := Float | Double.

Definition cpp_of_real (T : real_type) : cpp_type :=
  match T with Float => t_float | Double => t_double end.

(** The literals [0.0] and [1.0] converted to [RealType]. *)
Definition literal_0_0 (T : real_type) : real := S754_zero false.
Definition literal_1_0 (T : real_type) : real :=
  match T with
  | Float => S754_finite false 8388608 (-23)
  | Double => S754_finite false 4503599627370496 (-52)
  end.

(** ** Objects of the facade *)

(** [detail::rng_engine<GeneratorType>]; [prng_engine] and the named
    engines add no data member. *)
Record rng_engine : Type := mk_rng_engine
  { m_generator : rocrand_generator }.

(** The three engine classes. *)
Inductive engine_class : Type :=
| philox4x32_10_engine
| xorwow_engine
| mrg32k3a_engine.

(** The arguments of a [prng_engine] constructor call: both parameters
    have defaults, the first only can be given, or both. *)
Inductive ctor_args : Type :=
| no_args
| seed_arg (seed_value : seed_type)
| seed_offset_args (seed_value : seed_type) (offset_value : offset_type).

(** The value of the parameter [seed_value] in a constructor call. *)
Definition seed_argument (DefaultSeed : seed_type) (args : ctor_args)
  : seed_type :=
  match args with
  | no_args => DefaultSeed
  | seed_arg s | seed_offset_args s _ => s
  end.

(** The value of the parameter [offset_value] in a constructor call. *)
Definition offset_argument (args : ctor_args) : offset_type :=
  match args with
  | no_args | seed_arg _ => 0
  | seed_offset_args _ o => o
  end.

(** [uniform_int_distribution<unsigned int>] and
    [uniform_real_distribution<RealType>] have no data member. *)
Inductive uniform_int_distribution : Type :=
| mk_uniform_int_distribution.

Inductive uniform_real_distribution (RealType : real_type) : Type :=
| mk_uniform_real_distribution.

Arguments mk_uniform_real_distribution {RealType}.

(** [normal_distribution<RealType>::param_type] *)
Record param_type (RealType : real_type) : Type := mk_param_type
  { m_mean : real;
    m_stddev : real }.

Arguments mk_param_type {RealType} m_mean m_stddev.
Arguments m_mean {RealType} p.
Arguments m_stddev {RealType} p.

Record normal_distribution (RealType : real_type) : Type :=
  mk_normal_distribution
  { m_params : param_type RealType }.

Arguments mk_normal_distribution {RealType} m_params.
Arguments m_params {RealType} n.

(** [param_type::param_type(RealType mean = 0.0, RealType stddev = 1.0)] *)
Definition param_type_ctor {RealType} (mean stddev : option real)
  : param_type RealType :=
  {| m_mean := match mean with Some m => m | None => literal_0_0 RealType end;
     m_stddev :=
       match stddev with Some s => s | None => literal_1_0 RealType end |}.

Definition param_type_mean {RealType} (p : param_type RealType) : real :=
  m_mean p.

Definition param_type_stddev {RealType} (p : param_type RealType) : real :=
  m_stddev p.

(** [param_type::operator==]: [==] of the element type on both fields. *)
Definition param_type_eq {RealType} (this other : param_type RealType)
  : bool :=
  SFeqb (m_mean this) (m_mean other)
  && SFeqb (m_stddev this) (m_stddev other).

(** [param_type::operator!=] *)
Definition param_type_ne {RealType} (this other : param_type RealType)
  : bool :=
  negb (param_type_eq this other).

(** [normal_distribution::mean], [stddev], [param() const] *)
Definition mean {RealType} (this : normal_distribution RealType) : real :=
  param_type_mean (m_params this).

Definition stddev {RealType} (this : normal_distribution RealType) : real :=
  param_type_stddev (m_params this).

Definition param {RealType} (this : normal_distribution RealType)
  : param_type RealType :=
  m_params this.

(** [normal_distribution::param(const param_type&)]: the object after the
    assignment [m_params = params]. *)
Definition set_param {RealType} (this : normal_distribution RealType)
  (params : param_type RealType) : normal_distribution RealType :=
  {| m_params := params |}.

(** What [==] decides on IEEE data: neither operand is a NaN and both
    are the same number, the two zeros being one number. *)
Definition same_number (x y : real) : Prop :=
  match x, y with
  | S754_nan, _ | _, S754_nan => False
  | S754_zero _, S754_zero _ => True
  | _, _ => x = y
  end.

Definition is_nan (x : real) : bool :=
  match x with S754_nan => true | _ => false end.

(** ** Constructors of the distributions: the static assertions *)

Definition uniform_int_distribution_ctor (IntType : cpp_type)
  : build uniform_int_distribution :=
  static_assert (is_same t_unsigned_int IntType)
    "Only unsigned int type is supported in uniform_int_distribution"
    mk_uniform_int_distribution.

Definition uniform_real_distribution_assert (RealType : cpp_type) : bool :=
  is_same t_float RealType || is_same t_double RealType.

Definition normal_distribution_assert (RealType : cpp_type) : bool :=
  is_same t_float RealType || is_same t_double RealType.

Definition uniform_real_distribution_ctor (RealType : real_type)
  : build (uniform_real_distribution RealType) :=
  static_assert (uniform_real_distribution_assert (cpp_of_real RealType))
    "Only float and double types are supported in uniform_real_distribution"
    mk_uniform_real_distribution.

(** [normal_distribution(RealType mean = 0.0, RealType stddev = 1.0)] *)
Definition normal_distribution_ctor (RealType : real_type)
  (mean stddev : option real) : build (normal_distribution RealType) :=
  static_assert (normal_distribution_assert (cpp_of_real RealType))
    "Only float and double types are supported in normal_distribution"
    {| m_params :=
         param_type_ctor
           (Some (match mean with
                  | Some m => m
                  | None => literal_0_0 RealType
                  end))
           (Some (match stddev with
                  | Some s => s
                  | None => literal_1_0 RealType
                  end)) |}.

(** ** The member functions that call the backend *)

Section Facade.

(** The rocrand.h the header is compiled and linked against. *)
Variable H : rocrand_h.

(** *** Backend calls, each recorded with the status it returned *)

Definition call_create_generator (rng_type : rocrand_rng_type)
  : M (rocrand_status * rocrand_generator) :=
  fun t =>
    let r := rocrand_create_generator H t rng_type in
    (Returned r, t ++ [ev_create_generator rng_type (snd r) (fst r)]).

Definition call_destroy_generator (g : rocrand_generator)
  : M rocrand_status :=
  fun t =>
    let s := rocrand_destroy_generator H t g in
    (Returned s, t ++ [ev_destroy_generator g s]).

Definition call_set_stream (g : rocrand_generator) (value : hipStream_t)
  : M rocrand_status :=
  fun t =>
    let s := rocrand_set_stream H t g value in
    (Returned s, t ++ [ev_set_stream g value s]).

Definition call_set_seed (g : rocrand_generator) (value : seed_type)
  : M rocrand_status :=
  fun t =>
    let s := rocrand_set_seed H t g value in
    (Returned s, t ++ [ev_set_seed g value s]).

Definition call_set_offset (g : rocrand_generator) (value : offset_type)
  : M rocrand_status :=
  fun t =>
    let s := rocrand_set_offset H t g value in
    (Returned s, t ++ [ev_set_offset g value s]).

Definition call_generate (g : rocrand_generator) (output : pointer)
  (size : size_t) : M rocrand_status :=
  fun t =>
    let s := rocrand_generate H t g output size in
    (Returned s, t ++ [ev_generate g output size s]).

Definition call_generate_uniform (g : rocrand_generator)
  (output : pointer) (size : size_t) : M rocrand_status :=
  fun t =>
    let s := rocrand_generate_uniform H t g output size in
    (Returned s, t ++ [ev_generate_uniform g output size s]).

Definition call_generate_uniform_double (g : rocrand_generator)
  (output : pointer) (size : size_t) : M rocrand_status :=
  fun t =>
    let s := rocrand_generate_uniform_double H t g output size in
    (Returned s, t ++ [ev_generate_uniform_double g output size s]).

Definition call_generate_normal (g : rocrand_generator)
  (output : pointer) (size : size_t) (mu sigma : real)
  : M rocrand_status :=
  fun t =>
    let s := rocrand_generate_normal H t g output size mu sigma in
    (Returned s, t ++ [ev_generate_normal g output size mu sigma s]).

Definition call_generate_normal_double (g : rocrand_generator)
  (output : pointer) (size : size_t) (mu sigma : real)
  : M rocrand_status :=
  fun t =>
    let s := rocrand_generate_normal_double H t g output size mu sigma in
    (Returned s,
     t ++ [ev_generate_normal_double g output size mu sigma s]).

(** [if(status != ROCRAND_STATUS_SUCCESS) throw rocrand_cpp::error(status);] *)
Definition throw_unless_success (status : rocrand_status) : M unit :=
  if negb (status =? ROCRAND_STATUS_SUCCESS H)
  then throw (error_ctor status)
  else ret tt.

(** *** detail::rng_engine *)

(** [rng_engine()] *)
Definition rng_engine_ctor (GeneratorType : rocrand_rng_type)
  : M rng_engine :=
  r <- call_create_generator GeneratorType ;;
  throw_unless_success (fst r) ;;
  ret {| m_generator := snd r |}.

(** The body of [~rng_engine()]. *)
Definition rng_engine_dtor_body (this : rng_engine) : M unit :=
  status <- call_destroy_generator (m_generator this) ;;
  throw_unless_success status.

(** [~rng_engine()] is declared without an exception specification and
    the class has one pointer member, so the destructor is [noexcept]. *)
Definition rng_engine_dtor (this : rng_engine) : M unit :=
  noexcept (rng_engine_dtor_body this).

(** [rng_engine::stream] *)
Definition stream (this : rng_engine) (value : hipStream_t) : M unit :=
  status <- call_set_stream (m_generator this) value ;;
  throw_unless_success status.

(** *** detail::prng_engine *)

(** [prng_engine::seed] *)
Definition seed (this : rng_engine) (value : seed_type) : M unit :=
  status <- call_set_seed (m_generator this) value ;;
  throw_unless_success status.

(** [prng_engine::offset] *)
Definition offset (this : rng_engine) (value : offset_type) : M unit :=
  status <- call_set_offset (m_generator this) value ;;
  throw_unless_success status.

(** [prng_engine(seed_type seed_value = DefaultSeed,
                 offset_type offset_value = 0)]: the base class is
    constructed first; an exception that leaves the constructor body
    destroys the base subobject on its way out. *)
Definition prng_engine_ctor (GeneratorType : rocrand_rng_type)
  (DefaultSeed : seed_type) (args : ctor_args) : M rng_engine :=
  let seed_value := seed_argument DefaultSeed args in
  let offset_value := offset_argument args in
  this <- rng_engine_ctor GeneratorType ;;
  unwinding (rng_engine_dtor this)
    (seed this seed_value ;;
     (if offset_value >? 0 then offset this offset_value else ret tt) ;;
     ret this).

(** [~prng_engine()]: an empty body, then the base destructor. *)
Definition prng_engine_dtor (this : rng_engine) : M unit :=
  rng_engine_dtor this.

(** *** The named engines *)

Definition GeneratorType (c : engine_class) : rocrand_rng_type :=
  match c with
  | philox4x32_10_engine => ROCRAND_RNG_PSEUDO_PHILOX4_32_10 H
  | xorwow_engine => ROCRAND_RNG_PSEUDO_XORWOW H
  | mrg32k3a_engine => ROCRAND_RNG_PSEUDO_MRG32K3A H
  end.

Definition DefaultSeed (c : engine_class) : seed_type :=
  match c with
  | philox4x32_10_engine => ROCRAND_PHILOX4x32_DEFAULT_SEED H
  | xorwow_engine => ROCRAND_XORWOW_DEFAULT_SEED H
  | mrg32k3a_engine => ROCRAND_MRG32K3A_DEFAULT_SEED H
  end.

(** [using base_type::base_type;] *)
Definition engine_ctor (c : engine_class) (args : ctor_args)
  : M rng_engine :=
  prng_engine_ctor (GeneratorType c) (DefaultSeed c) args.

Definition engine_dtor (c : engine_class) (this : rng_engine) : M unit :=
  prng_engine_dtor this.

(** *** The distributions *)

Definition uniform_int_distribution_reset
  (this : uniform_int_distribution) : M uniform_int_distribution :=
  ret this.

(** [uniform_int_distribution::operator()] *)
Definition uniform_int_distribution_call (this : uniform_int_distribution)
  (g : rng_engine) (output : pointer) (size : size_t) : M unit :=
  status <- call_generate (m_generator g) output size ;;
  throw_unless_success status.

Definition uniform_real_distribution_reset {RealType}
  (this : uniform_real_distribution RealType)
  : M (uniform_real_distribution RealType) :=
  ret this.

(** The two overloads of [uniform_real_distribution::generate]; the
    static type of [output] selects one. *)
Definition uniform_real_distribution_generate {RealType}
  (this : uniform_real_distribution RealType)
  (g : rng_engine) (output : pointer) (size : size_t)
  : M rocrand_status :=
  match RealType with
  | Float => call_generate_uniform (m_generator g) output size
  | Double => call_generate_uniform_double (m_generator g) output size
  end.

(** [uniform_real_distribution::operator()] *)
Definition uniform_real_distribution_call {RealType}
  (this : uniform_real_distribution RealType)
  (g : rng_engine) (output : pointer) (size : size_t) : M unit :=
  status <- uniform_real_distribution_generate this g output size ;;
  throw_unless_success status.

Definition normal_distribution_reset {RealType}
  (this : normal_distribution RealType)
  : M (normal_distribution RealType) :=
  ret this.

(** The two overloads of [normal_distribution::generate]. *)
Definition normal_distribution_generate {RealType}
  (this : normal_distribution RealType)
  (g : rng_engine) (output : pointer) (size : size_t)
  : M rocrand_status :=
  match RealType with
  | Float =>
      call_generate_normal (m_generator g) output size
        (mean this) (stddev this)
  | Double =>
      call_generate_normal_double (m_generator g) output size
        (mean this) (stddev this)
  end.

(** [normal_distribution::operator()] *)
Definition normal_distribution_call {RealType}
  (this : normal_distribution RealType)
  (g : rng_engine) (output : pointer) (size : size_t) : M unit :=
  status <- normal_distribution_generate this g output size ;;
  throw_unless_success status.

(** *** Client code: a sequence of member calls on one distribution *)

Inductive normal_member (RealType : real_type) : Type :=
| do_reset
| do_call (g : rng_engine) (output : pointer) (size : size_t)
| do_param (params : param_type RealType).

Arguments do_reset {RealType}.
Arguments do_call {RealType} g output size.
Arguments do_param {RealType} params.

Definition is_do_param {RealType} (m : normal_member RealType) : bool :=
  match m with do_param _ => true | _ => false end.

(** One member call; the result is the object after the call. *)
Definition normal_member_run {RealType}
  (this : normal_distribution RealType) (m : normal_member RealType)
  : M (normal_distribution RealType) :=
  match m with
  | do_reset => normal_distribution_reset this
  | do_call g output size =>
      normal_distribution_call this g output size ;; ret this
  | do_param params => ret (set_param this params)
  end.

Fixpoint normal_members_run {RealType}
  (this : normal_distribution RealType)
  (ms : list (normal_member RealType))
  : M (normal_distribution RealType) :=
  match ms with
  | [] => ret this
  | m :: ms' =>
      this' <- normal_member_run this m ;; normal_members_run this' ms'
  end.

End Facade.

Arguments do_reset {RealType}.
Arguments do_call {RealType} g output size.
Arguments do_param {RealType} params.

(** ** Reading a trace *)

Definition is_destroy (e : event) : bool :=
  match e with ev_destroy_generator _ _ => true | _ => false end.

(** The handles passed to destroy, in call order. *)
Fixpoint destroy_calls (t : trace) : list rocrand_generator :=
  match t with
  | [] => []
  | ev_destroy_generator g _ :: t' => g :: destroy_calls t'
  | _ :: t' => destroy_calls t'
  end.



(** The backend resources that exist after a trace: a create that
    returned [ok] made one, a destroy call on a handle closes it. *)
Definition resources_step (ok : rocrand_status)
  (live : list rocrand_generator) (e : event) : list rocrand_generator :=
  match e with
  | ev_create_generator _ g s => if s =? ok then g :: live else live
  | ev_destroy_generator g _ => remove Z.eq_dec g live
  | _ => live
  end.

Definition resources (ok : rocrand_status) (t : trace)
  : list rocrand_generator :=
  fold_left (resources_step ok) t [].

(** What it means for a member function to wrap one backend call: it
    adds exactly the event [call t] to the trace, throws an error made
    from the returned status when that status is not [ok], and returns
    when it is. *)
Definition wraps {A} (ok : rocrand_status) (m : M A)
  (call : trace -> event) : Prop :=
  forall t,
    snd (m t) = (t ++ [call t])%list /\
    (ev_status (call t) <> ok ->
     exists e, fst (m t) = Thrown e /\ error_code e = ev_status (call t)) /\
    (ev_status (call t) = ok -> exists a, fst (m t) = Returned a).

(** ** A scripted backend for examples

    Every entry point answers with a fixed status; create hands out the
    handle [4096 + number of earlier calls]. *)
Definition scripted (create destroy set_stream set_seed set_offset
  generate : rocrand_status) : rocrand_h :=
  {| ROCRAND_STATUS_SUCCESS := 0;
     ROCRAND_RNG_PSEUDO_PHILOX4_32_10 := 404;
     ROCRAND_RNG_PSEUDO_XORWOW := 401;
     ROCRAND_RNG_PSEUDO_MRG32K3A := 402;
     ROCRAND_PHILOX4x32_DEFAULT_SEED := 16045690984833335023;
     ROCRAND_XORWOW_DEFAULT_SEED := 0;
     ROCRAND_MRG32K3A_DEFAULT_SEED := 12345;
     rocrand_create_generator :=
       fun t _ => (create, 4096 + Z.of_nat (List.length t));
     rocrand_destroy_generator := fun _ _ => destroy;
     rocrand_set_stream := fun _ _ _ => set_stream;
     rocrand_set_seed := fun _ _ _ => set_seed;
     rocrand_set_offset := fun _ _ _ => set_offset;
     rocrand_generate := fun _ _ _ _ => generate;
     rocrand_generate_uniform := fun _ _ _ _ => generate;
     rocrand_generate_uniform_double := fun _ _ _ _ => generate;
     rocrand_generate_normal := fun _ _ _ _ _ _ => generate;
     rocrand_generate_normal_double := fun _ _ _ _ _ _ => generate |}.

(** Every call succeeds. *)
Definition working : rocrand_h := scripted 0 0 0 0 0 0.

(** The handle an event is about: the one passed to the call, or the
    one create wrote. *)
Definition ev_generator (e : event) : rocrand_generator :=
  match e with
  | ev_create_generator _ g _
  | ev_destroy_generator g _
  | ev_set_stream g _ _
  | ev_set_seed g _ _
  | ev_set_offset g _ _
  | ev_generate g _ _ _
  | ev_generate_uniform g _ _ _
  | ev_generate_uniform_double g _ _ _
  | ev_generate_normal g _ _ _ _ _
  | ev_generate_normal_double g _ _ _ _ _ => g
  end.

Definition is_create (e : event) : bool :=
  match e with ev_create_generator _ _ _ => true | _ => false end.

Definition is_set_seed (e : event) : bool :=
  match e with ev_set_seed _ _ _ => true | _ => false end.

Definition is_set_offset (e : event) : bool :=
  match e with ev_set_offset _ _ _ => true | _ => false end.

(** The generator types passed to create, in call order. *)
Fixpoint create_calls (t : trace) : list rocrand_rng_type :=
  match t with
  | [] => []
  | ev_create_generator T _ _ :: t' => T :: create_calls t'
  | _ :: t' => create_calls t'
  end.

(** ** Client code: a sequence of member calls on one engine *)

Inductive engine_member : Type :=
| do_stream (value : hipStream_t)
| do_seed (value : seed_type)
| do_offset (value : offset_type)
| do_uniform_int (d : uniform_int_distribution)
    (output : pointer) (size : size_t)
| do_uniform_real (RealType : real_type)
    (d : uniform_real_distribution RealType)
    (output : pointer) (size : size_t)
| do_normal (RealType : real_type) (d : normal_distribution RealType)
    (output : pointer) (size : size_t).

Section Client.

Variable H : rocrand_h.

(** One member call on the engine [this], or one distribution applied
    to it. *)
Definition engine_member_run (this : rng_engine) (m : engine_member)
  : M unit :=
  match m with
  | do_stream value => stream H this value
  | do_seed value => seed H this value
  | do_offset value => offset H this value
  | do_uniform_int d output size =>
      uniform_int_distribution_call H d this output size
  | do_uniform_real _ d output size =>
      uniform_real_distribution_call H d this output size
  | do_normal _ d output size =>
      normal_distribution_call H d this output size
  end.

Fixpoint engine_members_run (this : rng_engine) (ms : list engine_member)
  : M unit :=
  match ms with
  | [] => ret tt
  | m :: ms' => engine_member_run this m ;; engine_members_run this ms'
  end.

(** An engine in automatic storage: it is constructed, the member
    calls are made, and it is destroyed when the scope is left, by the
    end of the block or by an exception passing through. *)
Definition engine_scope (c : engine_class) (args : ctor_args)
  (ms : list engine_member) : M unit :=
  this <- engine_ctor H c args ;;
  unwinding (engine_dtor H c this) (engine_members_run this ms) ;;
  engine_dtor H c this.

End Client.

(** ** The backend's answers during one construction

    The calls [engine_ctor c args] can issue from the trace [t], each
    with the status the backend gives it at that point. *)

Section ConstructionCalls.

Variable H : rocrand_h.
Variable c : engine_class.
Variable args : ctor_args.
Variable t : trace.

Definition ctor_create_status : rocrand_status :=
  fst (rocrand_create_generator H t (GeneratorType H c)).

Definition ctor_handle : rocrand_generator :=
  snd (rocrand_create_generator H t (GeneratorType H c)).

Definition ctor_create_event : event :=
  ev_create_generator (GeneratorType H c) ctor_handle ctor_create_status.

Definition ctor_seed_status : rocrand_status :=
  rocrand_set_seed H (t ++ [ctor_create_event]) ctor_handle
    (seed_argument (DefaultSeed H c) args).

Definition ctor_seed_event : event :=
  ev_set_seed ctor_handle (seed_argument (DefaultSeed H c) args)
    ctor_seed_status.

Definition ctor_offset_status : rocrand_status :=
  rocrand_set_offset H (t ++ [ctor_create_event; ctor_seed_event])
    ctor_handle (offset_argument args).

Definition ctor_offset_event : event :=
  ev_set_offset ctor_handle (offset_argument args) ctor_offset_status.

End ConstructionCalls.

(** * Properties *)

(** ** The error class *)

Lemma to_int_not_nil (z : Z) :
  Z.to_int z <> Decimal.Pos Decimal.Nil /\
  Z.to_int z <> Decimal.Neg Decimal.Nil.
Proof.
  destruct z as [|p|p]; cbn; split; try discriminate;
    intro E; injection E as E; exact (Unsigned.to_uint_nonnil p E).
Qed.

(** The decimal text determines the number. *)
Lemma stream_insert_int_inj (a b : Z) :
  stream_insert_int a = stream_insert_int b -> a = b.
Proof.
  unfold stream_insert_int. intro E.
  apply DecimalZ.to_int_inj.
  destruct (to_int_not_nil a) as [Ha Ha'], (to_int_not_nil b) as [Hb Hb'].
  pose proof (NilZero.isi _ Ha Ha') as Ia.
  pose proof (NilZero.isi _ Hb Hb') as Ib.
  rewrite E, Ib in Ia. now injection Ia.
Qed.

Lemma append_char_inj (x y : string) (c : Ascii.ascii) :
  (x ++ String c "")%string = (y ++ String c "")%string -> x = y.
Proof.
  revert y. induction x as [|a x IH]; intros [|b y] E; cbn in E.
  - reflexivity.
  - injection E as _ E. destruct y; discriminate.
  - injection E as _ E. destruct x; discriminate.
  - injection E as -> E. f_equal. now apply IH.
Qed.

(** Different codes give different messages. *)
Lemma to_string_inj (a b : rocrand_status) :
  to_string a = to_string b -> a = b.
Proof.
  unfold to_string. cbn. intro E.
  repeat (injection E as E).
  apply stream_insert_int_inj. now apply append_char_inj in E.
Qed.

Example to_string_101 : to_string 101 = "Unknown rocRAND Error (101)"%string.
Proof. reflexivity. Qed.

Example what_0 : what (error_ctor 0) = "Unknown rocRAND Error (0)"%string.
Proof. reflexivity. Qed.

Example error_string_neg :
  error_string (error_ctor (-7)) = "Unknown rocRAND Error (-7)"%string.
Proof. reflexivity. Qed.

(** C8: for every status code the error built from it carries, from
    construction on, the generic message "Unknown rocRAND Error (<code>)"
    with the code in decimal; no code has a message of its own, and
    [error_string] and [what] both report that message. *)
Theorem error_message_is_generic (status : rocrand_status) :
  to_string status =
    ("Unknown rocRAND Error ("
       ++ NilZero.string_of_int (Z.to_int status) ++ ")")%string /\
  m_error_string (error_ctor status) = to_string status /\
  error_string (error_ctor status) = to_string status /\
  what (error_ctor status) = to_string status /\
  error_code (error_ctor status) = status.
Proof. repeat split. Qed.

(** ** Error propagation around one backend call *)

Section Propagation.

Variable H : rocrand_h.

Local Abbreviation ok := (ROCRAND_STATUS_SUCCESS H).

Lemma throw_unless_success_run (status : rocrand_status) (t : trace) :
  throw_unless_success H status t =
    (if status =? ok then Returned tt else Thrown (error_ctor status), t).
Proof.
  unfold throw_unless_success.
  destruct (status =? ROCRAND_STATUS_SUCCESS H); reflexivity.
Qed.

(** The pattern shared by every member function but the constructor:
    one call, then the status test. *)
Lemma wraps_checked_call (c : M rocrand_status) (call : trace -> event) :
  (forall t, c t = (Returned (ev_status (call t)), (t ++ [call t])%list)) ->
  wraps ok (status <- c ;; throw_unless_success H status) call.
Proof.
  intros Hc t. unfold bind. rewrite Hc, throw_unless_success_run. cbn.
  split; [reflexivity|].
  destruct (Z.eqb_spec (ev_status (call t)) ok) as [E|N]; split; intro X.
  - contradiction.
  - now exists tt.
  - now exists (error_ctor (ev_status (call t))).
  - contradiction.
Qed.

Lemma rng_engine_ctor_run (GeneratorType : rocrand_rng_type) (t : trace) :
  rng_engine_ctor H GeneratorType t =
    let r := rocrand_create_generator H t GeneratorType in
    (if fst r =? ok
     then Returned {| m_generator := snd r |}
     else Thrown (error_ctor (fst r)),
     (t ++ [ev_create_generator GeneratorType (snd r) (fst r)])%list).
Proof.
  unfold rng_engine_ctor, bind, call_create_generator. cbn.
  rewrite throw_unless_success_run.
  destruct (fst (rocrand_create_generator H t GeneratorType) =? ok);
    reflexivity.
Qed.

(** Every member function that wraps one backend call (the
    construction of the handle base class, stream, seed, offset, and the
    call operator of each distribution at each element type) issues that
    call once; if the status it returns is not success the member
    function throws an error whose [error_code] is that status, and if
    it is success the member function returns. *)
Lemma wrapping_members_propagate_status
  (GeneratorType : rocrand_rng_type) (this g : rng_engine)
  (stream_value : hipStream_t) (seed_value : seed_type)
  (offset_value : offset_type) (output : pointer) (size : size_t)
  (ui : uniform_int_distribution)
  (urf : uniform_real_distribution Float)
  (urd : uniform_real_distribution Double)
  (nf : normal_distribution Float) (nd : normal_distribution Double) :
  wraps (ROCRAND_STATUS_SUCCESS H) (rng_engine_ctor H GeneratorType)
    (fun t =>
       ev_create_generator GeneratorType
         (snd (rocrand_create_generator H t GeneratorType))
         (fst (rocrand_create_generator H t GeneratorType))) /\
  wraps (ROCRAND_STATUS_SUCCESS H) (stream H this stream_value)
    (fun t =>
       ev_set_stream (m_generator this) stream_value
         (rocrand_set_stream H t (m_generator this) stream_value)) /\
  wraps (ROCRAND_STATUS_SUCCESS H) (seed H this seed_value)
    (fun t =>
       ev_set_seed (m_generator this) seed_value
         (rocrand_set_seed H t (m_generator this) seed_value)) /\
  wraps (ROCRAND_STATUS_SUCCESS H) (offset H this offset_value)
    (fun t =>
       ev_set_offset (m_generator this) offset_value
         (rocrand_set_offset H t (m_generator this) offset_value)) /\
  wraps (ROCRAND_STATUS_SUCCESS H)
    (uniform_int_distribution_call H ui g output size)
    (fun t =>
       ev_generate (m_generator g) output size
         (rocrand_generate H t (m_generator g) output size)) /\
  wraps (ROCRAND_STATUS_SUCCESS H)
    (uniform_real_distribution_call H urf g output size)
    (fun t =>
       ev_generate_uniform (m_generator g) output size
         (rocrand_generate_uniform H t (m_generator g) output size)) /\
  wraps (ROCRAND_STATUS_SUCCESS H)
    (uniform_real_distribution_call H urd g output size)
    (fun t =>
       ev_generate_uniform_double (m_generator g) output size
         (rocrand_generate_uniform_double H t (m_generator g)
            output size)) /\
  wraps (ROCRAND_STATUS_SUCCESS H)
    (normal_distribution_call H nf g output size)
    (fun t =>
       ev_generate_normal (m_generator g) output size
         (mean nf) (stddev nf)
         (rocrand_generate_normal H t (m_generator g) output size
            (mean nf) (stddev nf))) /\
  wraps (ROCRAND_STATUS_SUCCESS H)
    (normal_distribution_call H nd g output size)
    (fun t =>
       ev_generate_normal_double (m_generator g) output size
         (mean nd) (stddev nd)
         (rocrand_generate_normal_double H t (m_generator g) output size
            (mean nd) (stddev nd))).
Proof.
  split.
  { intro t. rewrite rng_engine_ctor_run. cbn.
    split; [reflexivity|].
    destruct (Z.eqb_spec (fst (rocrand_create_generator H t GeneratorType))
                ok) as [E|N]; split; intro X.
    - contradiction.
    - eexists; reflexivity.
    - eexists; split; reflexivity.
    - contradiction. }
  repeat match goal with |- _ /\ _ => split end;
    unfold stream, seed, offset, uniform_int_distribution_call,
      uniform_real_distribution_call, normal_distribution_call;
    apply wraps_checked_call; reflexivity.
Qed.

End Propagation.

(** ** Traces *)

Lemma issued_app {A} (m : M A) (t new : trace) :
  snd (m t) = (t ++ new)%list -> issued m t = new.
Proof.
  unfold issued. intros ->.
  rewrite skipn_app, skipn_all, Nat.sub_diag. reflexivity.
Qed.

Lemma resources_app (ok : rocrand_status) (t new : trace) :
  resources ok (t ++ new) =
    fold_left (resources_step ok) new (resources ok t).
Proof. unfold resources. apply fold_left_app. Qed.

(** ** Construction and destruction of an engine *)

Section Construction.

Variable H : rocrand_h.

Local Abbreviation ok := (ROCRAND_STATUS_SUCCESS H).

Lemma seed_run (this : rng_engine) (value : seed_type) (t : trace) :
  seed H this value t =
    let s := rocrand_set_seed H t (m_generator this) value in
    (if s =? ok then Returned tt else Thrown (error_ctor s),
     (t ++ [ev_set_seed (m_generator this) value s])%list).
Proof.
  unfold seed, bind, call_set_seed. cbn.
  now rewrite throw_unless_success_run.
Qed.

Lemma offset_run (this : rng_engine) (value : offset_type) (t : trace) :
  offset H this value t =
    let s := rocrand_set_offset H t (m_generator this) value in
    (if s =? ok then Returned tt else Thrown (error_ctor s),
     (t ++ [ev_set_offset (m_generator this) value s])%list).
Proof.
  unfold offset, bind, call_set_offset. cbn.
  now rewrite throw_unless_success_run.
Qed.

Lemma rng_engine_dtor_body_run (this : rng_engine) (t : trace) :
  rng_engine_dtor_body H this t =
    let s := rocrand_destroy_generator H t (m_generator this) in
    (if s =? ok then Returned tt else Thrown (error_ctor s),
     (t ++ [ev_destroy_generator (m_generator this) s])%list).
Proof.
  unfold rng_engine_dtor_body, bind, call_destroy_generator. cbn.
  now rewrite throw_unless_success_run.
Qed.

Lemma rng_engine_dtor_run (this : rng_engine) (t : trace) :
  rng_engine_dtor H this t =
    let s := rocrand_destroy_generator H t (m_generator this) in
    (if s =? ok then Returned tt else Terminated,
     (t ++ [ev_destroy_generator (m_generator this) s])%list).
Proof.
  unfold rng_engine_dtor, noexcept. rewrite rng_engine_dtor_body_run. cbn.
  destruct (_ =? _); reflexivity.
Qed.

(** The constructor, call by call. *)
Lemma prng_engine_ctor_run (T : rocrand_rng_type) (D : seed_type)
  (args : ctor_args) (t : trace) :
  prng_engine_ctor H T D args t =
    let r := rocrand_create_generator H t T in
    let g := snd r in
    let this := {| m_generator := g |} in
    let t1 := (t ++ [ev_create_generator T g (fst r)])%list in
    let sv := seed_argument D args in
    let ss := rocrand_set_seed H t1 g sv in
    let t2 := (t1 ++ [ev_set_seed g sv ss])%list in
    let ov := offset_argument args in
    let so := rocrand_set_offset H t2 g ov in
    let t3 := (t2 ++ [ev_set_offset g ov so])%list in
    if fst r =? ok then
      if ss =? ok then
        if ov >? 0 then
          if so =? ok then (Returned this, t3)
          else
            let sd := rocrand_destroy_generator H t3 g in
            (if sd =? ok then Thrown (error_ctor so) else Terminated,
             (t3 ++ [ev_destroy_generator g sd])%list)
        else (Returned this, t2)
      else
        let sd := rocrand_destroy_generator H t2 g in
        (if sd =? ok then Thrown (error_ctor ss) else Terminated,
         (t2 ++ [ev_destroy_generator g sd])%list)
    else (Thrown (error_ctor (fst r)), t1).
Proof.
  unfold prng_engine_ctor, bind at 1. rewrite rng_engine_ctor_run. cbn zeta.
  destruct (fst (rocrand_create_generator H t T) =? ok); [|reflexivity].
  unfold unwinding, bind. rewrite seed_run. cbn -[Z.gtb Z.eqb].
  destruct (rocrand_set_seed H _ _ _ =? ok).
  - destruct (offset_argument args >? 0).
    + rewrite offset_run. cbn -[Z.eqb].
      destruct (rocrand_set_offset H _ _ _ =? ok); [reflexivity|].
      rewrite rng_engine_dtor_run. cbn -[Z.eqb].
      destruct (_ =? _); reflexivity.
    + reflexivity.
  - rewrite rng_engine_dtor_run. cbn -[Z.eqb].
    destruct (_ =? _); reflexivity.
Qed.

Lemma run_eq {A} (m : M A) (t new : trace) (o : outcome A) :
  m t = (o, (t ++ new)%list) ->
  result m t = o /\ issued m t = new /\ snd (m t) = (t ++ new)%list.
Proof.
  intro E. unfold result. repeat split.
  - now rewrite E.
  - apply issued_app. now rewrite E.
  - now rewrite E.
Qed.



(** C3, as the code has it: destroying a handle issues the backend's
    destroy exactly once, on that handle.  If destroy returns success the
    destructor returns; if it returns another status, the destructor body
    throws an error carrying that status, and the destructor does not
    return. *)
Theorem destructor_throws_on_release_failure
  (this : rng_engine) (t : trace) :
  issued (rng_engine_dtor H this) t =
    [ev_destroy_generator (m_generator this)
       (rocrand_destroy_generator H t (m_generator this))] /\
  destroy_calls (issued (rng_engine_dtor H this) t) = [m_generator this] /\
  (rocrand_destroy_generator H t (m_generator this) = ok ->
   result (rng_engine_dtor H this) t = Returned tt) /\
  (rocrand_destroy_generator H t (m_generator this) <> ok ->
   result (rng_engine_dtor_body H this) t =
     Thrown (error_ctor (rocrand_destroy_generator H t (m_generator this))) /\
   result (rng_engine_dtor H this) t <> Returned tt).
Proof.
  pose proof (rng_engine_dtor_run this t) as D.
  pose proof (rng_engine_dtor_body_run this t) as B. cbn zeta in D, B.
  destruct (run_eq _ _ _ _ D) as (R & I & _).
  destruct (run_eq _ _ _ _ B) as (R' & _ & _).
  rewrite I, R, R'. split; [reflexivity|]. split; [reflexivity|].
  split.
  - intros ->. now rewrite Z.eqb_refl.
  - intro N. apply Z.eqb_neq in N. rewrite N.
    split; [reflexivity|discriminate].
Qed.

(** An exception out of the destructor ends the program. *)
Lemma destructor_terminates_on_release_failure
  (this : rng_engine) (t : trace) :
  rocrand_destroy_generator H t (m_generator this) <> ok ->
  result (rng_engine_dtor H this) t = Terminated.
Proof.
  intro N. apply Z.eqb_neq in N.
  unfold result. rewrite rng_engine_dtor_run. cbn. now rewrite N.
Qed.


(** C10, as the code has it: when create succeeds and then set-seed, or
    set-offset after a successful set-seed, returns a status other than
    success, the constructor does not return; the handle's destructor
    runs during unwinding, so destroy is the last backend call, it is
    issued exactly once and on the created handle, and a handle that was
    not a resource before is not one afterwards.  If that destroy call
    returns success the constructor throws an error carrying the failing
    status. *)
Theorem configuration_failure_releases_handle
  (c : engine_class) (args : ctor_args) (t : trace) :
  let T := GeneratorType H c in
  let g := snd (rocrand_create_generator H t T) in
  let t1 :=
    (t ++ [ev_create_generator T g (fst (rocrand_create_generator H t T))])
    %list in
  let sv := seed_argument (DefaultSeed H c) args in
  let ss := rocrand_set_seed H t1 g sv in
  let t2 := (t1 ++ [ev_set_seed g sv ss])%list in
  let ov := offset_argument args in
  let so := rocrand_set_offset H t2 g ov in
  let t3 := (t2 ++ [ev_set_offset g ov so])%list in
  let failing := if ss =? ok then so else ss in
  let before_destroy := if ss =? ok then t3 else t2 in
  let sd := rocrand_destroy_generator H before_destroy g in
  fst (rocrand_create_generator H t T) = ok ->
  ss <> ok \/ (ss = ok /\ ov > 0 /\ so <> ok) ->
  snd (engine_ctor H c args t) =
    (before_destroy ++ [ev_destroy_generator g sd])%list /\
  destroy_calls (issued (engine_ctor H c args) t) = [g] /\
  (forall e, result (engine_ctor H c args) t <> Returned e) /\
  (sd = ok ->
   result (engine_ctor H c args) t = Thrown (error_ctor failing)) /\
  (~ In g (resources ok t) ->
   resources ok (snd (engine_ctor H c args t)) = resources ok t).
Proof.
  intros T g t1 sv ss t2 ov so t3 failing before_destroy sd C F.
  apply Z.eqb_eq in C.
  assert (engine_ctor H c args t =
            (if sd =? ok then Thrown (error_ctor failing) else Terminated,
             (before_destroy ++ [ev_destroy_generator g sd])%list)) as E.
  { subst sd before_destroy failing.
    unfold engine_ctor. rewrite prng_engine_ctor_run. cbn zeta.
    fold T. rewrite C. fold g t1 sv ss t2 ov so t3.
    destruct F as [N | (S & P & N)].
    - apply Z.eqb_neq in N. rewrite N. reflexivity.
    - apply Z.eqb_eq in S. apply Z.eqb_neq in N.
      assert ((ov >? 0) = true) as P' by (apply Z.gtb_lt; lia).
      rewrite S, P', N. reflexivity. }
  assert (exists mid,
             before_destroy = (t ++ ev_create_generator T g ok :: mid)%list /\
             destroy_calls mid = [] /\
             fold_left (resources_step ok) mid (g :: resources ok t) =
               g :: resources ok t) as (mid & B & Dm & Rm).
  { apply Z.eqb_eq in C. subst before_destroy t3 t2 t1. rewrite C.
    destruct (ss =? ok).
    - exists [ev_set_seed g sv ss; ev_set_offset g ov so].
      rewrite <- !app_assoc. repeat split.
    - exists [ev_set_seed g sv ss].
      rewrite <- !app_assoc. repeat split. }
  split; [now rewrite E|].
  split.
  { apply (f_equal snd) in E. cbn [snd] in E.
    rewrite B, <- app_assoc in E. cbn [app] in E.
    rewrite (issued_app _ _ _ E). cbn [destroy_calls].
    clear -Dm. induction mid as [|ev mid IH]; [reflexivity|].
    destruct ev; cbn in *; try discriminate; auto. }
  split.
  { intro e. unfold result. rewrite E. cbn [fst].
    destruct (sd =? ok); discriminate. }
  split.
  { intros ->. unfold result. rewrite E, Z.eqb_refl. reflexivity. }
  intro Fresh. rewrite E. cbn [snd].
  rewrite B, <- app_assoc, resources_app. cbn [app fold_left resources_step].
  rewrite Z.eqb_refl, fold_left_app, Rm. cbn [fold_left resources_step remove].
  destruct (Z.eq_dec g g) as [_|X]; [|contradiction].
  now apply notin_remove.
Qed.

End Construction.

(** ** The distributions *)

Lemma finite_compare (mx my : positive) (ex ey : Z) (flip : bool) :
  (match ex ?= ey with
   | Eq => (if flip then CompOpp else fun c => c) (Pos.compare_cont Eq mx my)
   | Lt => if flip then Gt else Lt
   | Gt => if flip then Lt else Gt
   end) = Eq <-> mx = my /\ ex = ey.
Proof.
  destruct (Z.compare_spec ex ey) as [Ee|Ee|Ee].
  - rewrite Pos.compare_cont_spec. cbn.
    destruct (Pos.compare_spec mx my) as [Em|Em|Em], flip; cbn;
      split; try discriminate; try (intros [? _]; lia); auto.
  - destruct flip; split; try discriminate; intros [_ ?]; lia.
  - destruct flip; split; try discriminate; intros [_ ?]; lia.
Qed.
Lemma SFeqb_same_number (x y : real) :
  SFeqb x y = true <-> same_number x y.
Proof.
  unfold SFeqb.
  destruct x as [sx|sx| |sx mx ex], y as [sy|sy| |sy my ey];
    try destruct sx; try destruct sy; cbn;
    try (split; intro E;
         first [discriminate E | exact I | reflexivity | contradiction]).
  - pose proof (finite_compare mx my ex ey true) as F. cbn in F.
    split; intro E.
    + destruct F as [F _]. destruct F as [-> ->]; [|reflexivity].
      destruct (ex ?= ey); [destruct (CompOpp _)| |];
        first [reflexivity | discriminate E].
    + injection E as E1 E2. destruct F as [_ F].
      rewrite (F (conj E1 E2)). reflexivity.
  - pose proof (finite_compare mx my ex ey false) as F. cbn in F.
    split; intro E.
    + destruct F as [F _]. destruct F as [-> ->]; [|reflexivity].
      destruct (ex ?= ey); [destruct (Pos.compare_cont _ _ _)| |];
        first [reflexivity | discriminate E].
    + injection E as E1 E2. destruct F as [_ F].
      rewrite (F (conj E1 E2)). reflexivity.
Qed.

Lemma same_number_refl (x : real) : is_nan x = false -> same_number x x.
Proof. destruct x; cbn; try discriminate; auto. Qed.

Lemma is_same_true (a b : cpp_type) : is_same a b = true <-> a = b.
Proof.
  unfold is_same. destruct (cpp_type_eq_dec a b); split;
    try discriminate; auto.
Qed.

(** Only [float] and [double] pass the assertion of the real
    distributions. *)
Lemma real_distribution_asserts (T : cpp_type) :
  (uniform_real_distribution_assert T = true <->
   exists R : real_type, T = cpp_of_real R) /\
  (normal_distribution_assert T = true <->
   exists R : real_type, T = cpp_of_real R).
Proof.
  unfold uniform_real_distribution_assert, normal_distribution_assert.
  rewrite orb_true_iff, !is_same_true.
  assert ((t_float = T \/ t_double = T) <->
          exists R : real_type, T = cpp_of_real R) as X.
  { split.
    - intros [<- | <-]; [now exists Float | now exists Double].
    - intros [[] ->]; cbn; auto. }
  now split.
Qed.

(** C5: the constructor of [uniform_int_distribution<IntType>] is built
    only for [IntType = unsigned int]; for every other element type the
    static assertion stops the build with its message, so the rejection
    is a build result and not a run-time outcome. *)
Theorem uniform_int_only_for_unsigned_int (IntType : cpp_type) :
  (IntType = t_unsigned_int ->
   uniform_int_distribution_ctor IntType =
     Built mk_uniform_int_distribution) /\
  (IntType <> t_unsigned_int ->
   uniform_int_distribution_ctor IntType =
     Ill_formed
       "Only unsigned int type is supported in uniform_int_distribution") /\
  ((exists d, uniform_int_distribution_ctor IntType = Built d) <->
   IntType = t_unsigned_int).
Proof.
  unfold uniform_int_distribution_ctor, static_assert, is_same.
  destruct (cpp_type_eq_dec t_unsigned_int IntType) as [E|N].
  - subst. repeat split; auto.
    + intro X. contradiction.
    + now exists mk_uniform_int_distribution.
  - split; [intro E; subst; contradiction|].
    split; [reflexivity|].
    split; [intros [d X]; discriminate X | intro E; subst; contradiction].
Qed.

Example uniform_int_int :
  uniform_int_distribution_ctor t_int =
    Ill_formed
      "Only unsigned int type is supported in uniform_int_distribution".
Proof. reflexivity. Qed.

Section Distributions.

Variable H : rocrand_h.

(** C6: the call operator of [normal_distribution<float>] issues one
    [rocrand_generate_normal] call and that of
    [normal_distribution<double>] one [rocrand_generate_normal_double]
    call, each with the engine's handle, the output pointer, the size
    and the distribution's mean and standard deviation as they are when
    the call is made: those last set by [param(p)]. *)
Theorem normal_call_forwards_current_parameters
  (nf : normal_distribution Float) (nd : normal_distribution Double)
  (pf : param_type Float) (pd : param_type Double)
  (g : rng_engine) (output : pointer) (size : size_t) (t : trace) :
  issued (normal_distribution_call H nf g output size) t =
    [ev_generate_normal (m_generator g) output size
       (m_mean (m_params nf)) (m_stddev (m_params nf))
       (rocrand_generate_normal H t (m_generator g) output size
          (m_mean (m_params nf)) (m_stddev (m_params nf)))] /\
  issued (normal_distribution_call H nd g output size) t =
    [ev_generate_normal_double (m_generator g) output size
       (m_mean (m_params nd)) (m_stddev (m_params nd))
       (rocrand_generate_normal_double H t (m_generator g) output size
          (m_mean (m_params nd)) (m_stddev (m_params nd)))] /\
  issued (normal_distribution_call H (set_param nf pf) g output size) t =
    [ev_generate_normal (m_generator g) output size
       (m_mean pf) (m_stddev pf)
       (rocrand_generate_normal H t (m_generator g) output size
          (m_mean pf) (m_stddev pf))] /\
  issued (normal_distribution_call H (set_param nd pd) g output size) t =
    [ev_generate_normal_double (m_generator g) output size
       (m_mean pd) (m_stddev pd)
       (rocrand_generate_normal_double H t (m_generator g) output size
          (m_mean pd) (m_stddev pd))].
Proof.
  repeat split; apply issued_app;
    unfold normal_distribution_call, bind, normal_distribution_generate,
      call_generate_normal, call_generate_normal_double;
    cbn zeta; rewrite throw_unless_success_run; reflexivity.
Qed.

(** A sequence of member calls without [param(p)] hands back the
    distribution it started from. *)
Lemma members_run_keeps_object {RealType}
  (ms : list (normal_member RealType)) :
  forall (this this' : normal_distribution RealType) (t : trace),
    forallb (fun m => negb (is_do_param m)) ms = true ->
    result (normal_members_run H this ms) t = Returned this' ->
    this' = this.
Proof.
  induction ms as [|m ms IH]; intros this this' t NP R.
  - cbn in R. now injection R.
  - cbn in NP. apply andb_true_iff in NP as [Nm NP].
    unfold result in *. cbn [normal_members_run] in R. unfold bind in R.
    destruct m as [|g output size|params]; cbn in Nm; try discriminate.
    + cbn in R. now apply (IH _ _ t).
    + cbn [normal_member_run] in R. unfold bind at 1 in R.
      destruct (normal_distribution_call H this g output size t)
        as [[[]|e|] t'] eqn:C; cbn in R; try discriminate.
      now apply (IH _ _ t').
Qed.

(** C9: [reset()] of each distribution returns with the object as it
    was and the trace as it was, so it issues no backend call; in
    particular the normal distribution's parameters are the same after
    [reset()].  They also stay the same through any sequence of
    [reset()] and generation calls, and are those given to the last
    [param(p)]. *)
Theorem reset_is_a_no_op {RealType}
  (ui : uniform_int_distribution)
  (ur : uniform_real_distribution RealType)
  (n : normal_distribution RealType) (p : param_type RealType)
  (ms : list (normal_member RealType)) (t : trace) :
  uniform_int_distribution_reset ui t = (Returned ui, t) /\
  uniform_real_distribution_reset ur t = (Returned ur, t) /\
  normal_distribution_reset n t = (Returned n, t) /\
  issued (uniform_int_distribution_reset ui) t = [] /\
  issued (uniform_real_distribution_reset ur) t = [] /\
  issued (normal_distribution_reset n) t = [] /\
  normal_distribution_reset (set_param n p) t = (Returned (set_param n p), t) /\
  (forall n',
     forallb (fun m => negb (is_do_param m)) ms = true ->
     result (normal_members_run H n ms) t = Returned n' ->
     mean n' = mean n /\ stddev n' = stddev n /\ param n' = param n) /\
  (forall n',
     forallb (fun m => negb (is_do_param m)) ms = true ->
     result (normal_members_run H n (do_param p :: ms)) t = Returned n' ->
     param n' = p).
Proof.
  assert (forall A (x : A), issued (ret x) t = []) as I.
  { intros A x. apply issued_app. cbn. now rewrite app_nil_r. }
  repeat (split; [first [reflexivity | apply I]|]).
  split.
  - intros n' NP R. now rewrite (members_run_keeps_object ms n n' t NP R).
  - intros n' NP R. cbn [normal_members_run normal_member_run] in R.
    unfold result, bind, ret in R. cbn in R.
    now rewrite (members_run_keeps_object ms (set_param n p) n' t NP R).
Qed.

End Distributions.

(** C7, as the code has it: [param(p)] followed by [param()] returns
    [p] itself.  [operator==] is true exactly when neither the means nor
    the standard deviations involve a NaN and both pairs are the same
    number (the two zeros counting as one number); so a value compares
    equal to itself when it holds no NaN.  [operator!=] is the negation. *)
Theorem param_roundtrip_and_equality {RealType}
  (d : normal_distribution RealType) (p q : param_type RealType) :
  param (set_param d p) = p /\
  (param_type_eq p q = true <->
   same_number (m_mean p) (m_mean q) /\
   same_number (m_stddev p) (m_stddev q)) /\
  (is_nan (m_mean p) = false -> is_nan (m_stddev p) = false ->
   param_type_eq (param (set_param d p)) p = true) /\
  param_type_ne p q = negb (param_type_eq p q).
Proof.
  assert (param_type_eq p q = true <->
          same_number (m_mean p) (m_mean q) /\
          same_number (m_stddev p) (m_stddev q)) as X.
  { unfold param_type_eq.
    now rewrite andb_true_iff, !SFeqb_same_number. }
  split; [reflexivity|]. split; [exact X|]. split; [|reflexivity].
  intros Nm Ns. cbn. unfold param_type_eq.
  apply andb_true_iff. rewrite !SFeqb_same_number.
  split; now apply same_number_refl.
Qed.

(** ** Concrete runs against the scripted backend *)

Example stream_failure :
  stream (scripted 0 0 105 0 0 0) {| m_generator := 4096 |} 3 [] =
    (Thrown (error_ctor 105), [ev_set_stream 4096 3 105]).
Proof. reflexivity. Qed.

Example default_construction :
  engine_ctor working philox4x32_10_engine no_args [] =
    (Returned {| m_generator := 4096 |},
     [ev_create_generator 404 4096 0;
      ev_set_seed 4096 16045690984833335023 0]).
Proof. reflexivity. Qed.

Example construction_with_offset :
  engine_ctor working mrg32k3a_engine (seed_offset_args 1 5) [] =
    (Returned {| m_generator := 4096 |},
     [ev_create_generator 402 4096 0; ev_set_seed 4096 1 0;
      ev_set_offset 4096 5 0]).
Proof. reflexivity. Qed.

Example offset_failure_unwinds :
  engine_ctor (scripted 0 0 0 0 104 0) xorwow_engine
    (seed_offset_args 1 5) [] =
    (Thrown (error_ctor 104),
     [ev_create_generator 401 4096 0; ev_set_seed 4096 1 0;
      ev_set_offset 4096 5 104; ev_destroy_generator 4096 0]).
Proof. reflexivity. Qed.

Example normal_double_call :
  normal_distribution_call working
    (mk_normal_distribution (RealType := Double)
       (param_type_ctor None None))
    {| m_generator := 4096 |} 8192 1000 [] =
    (Returned tt,
     [ev_generate_normal_double 4096 8192 1000
        (S754_zero false) (S754_finite false 4503599627370496 (-52)) 0]).
Proof. reflexivity. Qed.


(** C3 fails as stated: a destroy that returns 102 makes the destructor
    body throw, and the destructor does not return. *)
Lemma failed_release_is_thrown :
  result
    (rng_engine_dtor_body (scripted 0 102 0 0 0 0) {| m_generator := 4096 |})
    [] = Thrown (error_ctor 102) /\
  result
    (rng_engine_dtor (scripted 0 102 0 0 0 0) {| m_generator := 4096 |})
    [] = Terminated /\
  result
    (rng_engine_dtor (scripted 0 102 0 0 0 0) {| m_generator := 4096 |})
    [] <> Returned tt.
Proof. repeat split. discriminate. Qed.

(** C3 at a backend whose destroy fails with 102. *)
Lemma destructor_throws_on_release_failure_witness :
  issued
    (rng_engine_dtor (scripted 0 102 0 0 0 0) {| m_generator := 4096 |}) []
    = [ev_destroy_generator 4096 102] /\
  result
    (rng_engine_dtor_body (scripted 0 102 0 0 0 0) {| m_generator := 4096 |})
    [] = Thrown (error_ctor 102).
Proof.
  pose proof
    (destructor_throws_on_release_failure (scripted 0 102 0 0 0 0)
       {| m_generator := 4096 |} []) as (I & _ & _ & T).
  split; [exact I|].
  apply T. cbn. discriminate.
Defined.



(** C10 fails as stated: set-seed fails with 101 and the destroy issued
    during unwinding fails with 102; the program is terminated and no
    error reaches the caller. *)
Lemma failed_release_during_unwinding_terminates :
  fst (rocrand_create_generator (scripted 0 102 0 101 0 0) []
         (GeneratorType (scripted 0 102 0 101 0 0) philox4x32_10_engine))
    = 0 /\
  engine_ctor (scripted 0 102 0 101 0 0) philox4x32_10_engine (seed_arg 1) []
    = (Terminated,
       [ev_create_generator 404 4096 0; ev_set_seed 4096 1 101;
        ev_destroy_generator 4096 102]) /\
  result
    (engine_ctor (scripted 0 102 0 101 0 0) philox4x32_10_engine (seed_arg 1))
    [] <> Thrown (error_ctor 101).
Proof. repeat split. discriminate. Qed.

(** C10 at a backend whose set-seed fails with 101 and whose destroy
    succeeds. *)
Lemma configuration_failure_releases_handle_witness :
  snd (engine_ctor (scripted 0 0 0 101 0 0) mrg32k3a_engine no_args []) =
    [ev_create_generator 402 4096 0; ev_set_seed 4096 12345 101;
     ev_destroy_generator 4096 0] /\
  destroy_calls
    (issued (engine_ctor (scripted 0 0 0 101 0 0) mrg32k3a_engine no_args) [])
    = [4096] /\
  result (engine_ctor (scripted 0 0 0 101 0 0) mrg32k3a_engine no_args) [] =
    Thrown (error_ctor 101) /\
  resources 0
    (snd (engine_ctor (scripted 0 0 0 101 0 0) mrg32k3a_engine no_args []))
    = [].
Proof.
  assert (101 <> 0 \/ 101 = 0 /\ 0 > 0 /\ 0 <> 0) as F
    by (left; discriminate).
  pose proof
    (configuration_failure_releases_handle (scripted 0 0 0 101 0 0)
       mrg32k3a_engine no_args [] eq_refl F) as (S & D & _ & T & R).
  split; [exact S|]. split; [exact D|]. split; [exact (T eq_refl)|].
  apply R. intros [].
Defined.

(** C7 fails as stated: a parameter set whose mean is a NaN has the same
    mean and standard deviation as itself and does not compare equal to
    itself, also after [param(p)] and [param()]. *)
Lemma nan_param_differs_from_itself :
  param_type_eq
    (param
       (set_param
          (mk_normal_distribution (RealType := Float)
             (param_type_ctor None None))
          (param_type_ctor (Some S754_nan) None)))
    (param_type_ctor (Some S754_nan) None) = false /\
  ~ (param_type_eq (RealType := Float)
       (param_type_ctor (Some S754_nan) None)
       (param_type_ctor (Some S754_nan) None) = true <->
     m_mean (RealType := Float) (param_type_ctor (Some S754_nan) None) =
       m_mean (RealType := Float) (param_type_ctor (Some S754_nan) None) /\
     m_stddev (RealType := Float) (param_type_ctor (Some S754_nan) None) =
       m_stddev (RealType := Float) (param_type_ctor (Some S754_nan) None)).
Proof.
  split; [reflexivity|].
  intros [_ X]. specialize (X (conj eq_refl eq_refl)). discriminate X.
Qed.

(** C7 at two parameter sets that differ in the sign of a zero mean. *)
Lemma param_roundtrip_and_equality_witness :
  param
    (set_param
       (mk_normal_distribution (RealType := Double)
          (param_type_ctor None None))
       (param_type_ctor (Some (S754_zero true)) None)) =
    param_type_ctor (Some (S754_zero true)) None /\
  param_type_eq (RealType := Double)
    (param_type_ctor (Some (S754_zero true)) None)
    (param_type_ctor None None) = true.
Proof.
  pose proof
    (param_roundtrip_and_equality
       (mk_normal_distribution (RealType := Double)
          (param_type_ctor None None))
       (param_type_ctor (Some (S754_zero true)) None)
       (param_type_ctor None None)) as (R & E & _).
  split; [exact R|].
  apply E. cbn. split; [exact I | reflexivity].
Defined.

(** * Further properties of the header *)

(** ** The error class *)

(** X1: The message of an error identifies its code: two errors report the
    same [what()] (or the same [error_string()]) exactly when they were
    built from the same status. *)
Theorem error_message_determines_code (a b : rocrand_status) :
  (what (error_ctor a) = what (error_ctor b) <-> a = b) /\
  (error_string (error_ctor a) = error_string (error_ctor b) <-> a = b) /\
  (error_ctor a = error_ctor b <-> a = b).
Proof.
  repeat split; intro E; subst; try reflexivity.
  - now apply to_string_inj.
  - now apply to_string_inj.
  - now injection E.
Qed.

(** ** Constructors of the real distributions *)

(** X2: The static assertion of [uniform_real_distribution] and of
    [normal_distribution] holds for [float] and [double] and for no other
    element type; for these two the constructors are built. *)
Theorem real_distributions_only_for_float_and_double (T : cpp_type) :
  (uniform_real_distribution_assert T = true <-> T = t_float \/ T = t_double) /\
  (normal_distribution_assert T = true <-> T = t_float \/ T = t_double) /\
  (forall R : real_type,
     uniform_real_distribution_ctor R = Built mk_uniform_real_distribution /\
     exists d, normal_distribution_ctor R None None = Built d).
Proof.
  unfold uniform_real_distribution_assert, normal_distribution_assert.
  rewrite orb_true_iff, !is_same_true.
  split; [|split].
  - split; intros [E|E]; auto.
  - split; intros [E|E]; auto.
  - intros []; split; try reflexivity; eexists; reflexivity.
Qed.

(** X3: A normal distribution reports the mean and standard deviation its
    constructor was given, and 0.0 and 1.0 when it was given none; its
    [param()] is the [param_type] built from the same arguments, and a
    default-constructed distribution compares equal to a
    default-constructed [param_type]. *)
Theorem normal_ctor_parameters (R : real_type) (m s : option real) :
  exists d,
    normal_distribution_ctor R m s = Built d /\
    mean d = match m with Some x => x | None => S754_zero false end /\
    stddev d = match s with Some x => x | None => literal_1_0 R end /\
    param d = param_type_ctor m s /\
    param_type_mean (param d) = mean d /\
    param_type_stddev (param d) = stddev d /\
    (m = None -> s = None ->
     param_type_eq (param d) (param_type_ctor None None) = true).
Proof.
  destruct R; eexists; (split; [reflexivity|]);
    destruct m, s; repeat split; intros; try discriminate; reflexivity.
Qed.

(** ** Equality of parameter sets *)

Lemma same_number_sym (x y : real) : same_number x y -> same_number y x.
Proof.
  destruct x, y; cbn; auto; intro E; try discriminate E; now rewrite E.
Qed.

Lemma same_number_trans (x y z : real) :
  same_number x y -> same_number y z -> same_number x z.
Proof.
  destruct x, y, z; cbn; auto; intros E F;
    try contradiction; try discriminate E; try discriminate F;
    congruence.
Qed.

Lemma SFeqb_sym (x y : real) : SFeqb x y = SFeqb y x.
Proof.
  destruct (SFeqb x y) eqn:E, (SFeqb y x) eqn:F; try reflexivity.
  - apply SFeqb_same_number, same_number_sym, SFeqb_same_number in E.
    congruence.
  - apply SFeqb_same_number, same_number_sym, SFeqb_same_number in F.
    congruence.
Qed.

(** X4: [operator==] of [param_type] does not depend on the order of its
    operands, [operator!=] is its negation in both orders, and a value
    compares equal to itself exactly when neither field is a NaN. *)
Theorem param_equality_symmetric {RealType} (p q : param_type RealType) :
  param_type_eq p q = param_type_eq q p /\
  param_type_ne p q = param_type_ne q p /\
  param_type_ne p q = negb (param_type_eq q p) /\
  (param_type_eq p p = true <->
   is_nan (m_mean p) = false /\ is_nan (m_stddev p) = false).
Proof.
  assert (param_type_eq p q = param_type_eq q p) as S.
  { unfold param_type_eq.
    now rewrite (SFeqb_sym (m_mean p)), (SFeqb_sym (m_stddev p)). }
  unfold param_type_ne. rewrite S.
  split; [reflexivity|]. split; [reflexivity|]. split; [reflexivity|].
  split.
  - intro E. unfold param_type_eq in E. apply andb_true_iff in E as [A B].
    split.
    + destruct (m_mean p); try reflexivity; discriminate A.
    + destruct (m_stddev p); try reflexivity; discriminate B.
  - intros [A B]. unfold param_type_eq.
    apply andb_true_iff.
    rewrite !SFeqb_same_number. split; now apply same_number_refl.
Qed.

(** X5: [operator==] of [param_type] is transitive. *)
Theorem param_equality_transitive {RealType} (p q r : param_type RealType) :
  param_type_eq p q = true ->
  param_type_eq q r = true ->
  param_type_eq p r = true.
Proof.
  unfold param_type_eq. rewrite !andb_true_iff, !SFeqb_same_number.
  intros [A B] [C D]. split; eapply same_number_trans; eassumption.
Qed.

(** Transitivity across the two zeros. *)
Lemma param_equality_transitive_witness :
  param_type_eq (RealType := Float)
    (param_type_ctor (Some (S754_zero true)) None)
    (param_type_ctor None (Some (S754_finite false 8388608 (-23)))) = true.
Proof.
  apply (param_equality_transitive
           (param_type_ctor (Some (S754_zero true)) None)
           (param_type_ctor None None)
           (param_type_ctor None (Some (S754_finite false 8388608 (-23)))));
    reflexivity.
Defined.

(** ** The life of an engine *)

Section Lifecycle.

Variable H : rocrand_h.

Local Abbreviation ok := (ROCRAND_STATUS_SUCCESS H).

(** The five ways a construction can go. *)
Lemma engine_ctor_cases (c : engine_class) (args : ctor_args) (t : trace) :
  let C := ctor_create_event H c t in
  let S := ctor_seed_event H c args t in
  let O := ctor_offset_event H c args t in
  let g := ctor_handle H c t in
  let this := {| m_generator := g |} in
  (ctor_create_status H c t <> ok /\
   engine_ctor H c args t =
     (Thrown (error_ctor (ctor_create_status H c t)), t ++ [C])%list) \/
  (ctor_create_status H c t = ok /\ ctor_seed_status H c args t <> ok /\
   exists sd,
     engine_ctor H c args t =
       (if sd =? ok
        then Thrown (error_ctor (ctor_seed_status H c args t))
        else Terminated,
        t ++ [C; S; ev_destroy_generator g sd])%list) \/
  (ctor_create_status H c t = ok /\ ctor_seed_status H c args t = ok /\
   offset_argument args <= 0 /\
   engine_ctor H c args t = (Returned this, t ++ [C; S])%list) \/
  (ctor_create_status H c t = ok /\ ctor_seed_status H c args t = ok /\
   offset_argument args > 0 /\ ctor_offset_status H c args t = ok /\
   engine_ctor H c args t = (Returned this, t ++ [C; S; O])%list) \/
  (ctor_create_status H c t = ok /\ ctor_seed_status H c args t = ok /\
   offset_argument args > 0 /\ ctor_offset_status H c args t <> ok /\
   exists sd,
     engine_ctor H c args t =
       (if sd =? ok
        then Thrown (error_ctor (ctor_offset_status H c args t))
        else Terminated,
        t ++ [C; S; O; ev_destroy_generator g sd])%list).
Proof.
  intros C S O g this. subst C S O g this.
  unfold engine_ctor. rewrite prng_engine_ctor_run. cbn zeta.
  unfold ctor_offset_event, ctor_offset_status, ctor_seed_event,
    ctor_seed_status, ctor_create_event, ctor_handle, ctor_create_status.
  rewrite <- !app_assoc. cbn [app].
  destruct (Z.eqb_spec (fst (rocrand_create_generator H t (GeneratorType H c)))
              ok) as [Ec|Nc]; [|left; split; [exact Nc|reflexivity]].
  right.
  match goal with
  | |- context [if ?s =? ok then _ else _] =>
      destruct (Z.eqb_spec s ok) as [Es|Ns]
  end; [|left; split; [exact Ec|]; split; [exact Ns|];
         eexists; reflexivity].
  right.
  destruct (Z.gtb_spec (offset_argument args) 0) as [P|NP];
    [|left; repeat split; auto].
  right.
  match goal with
  | |- context [if ?s =? ok then _ else _] =>
      destruct (Z.eqb_spec s ok) as [Eo|No]
  end.
  - left. repeat split; auto. lia.
  - right. split; [exact Ec|]. split; [exact Es|]. split; [lia|].
    split; [exact No|]. eexists; reflexivity.
Qed.

(** X6: The constructor of an engine follows one protocol: create first and
    once; set-seed only after a successful create; set-offset only after
    a successful set-seed and for a positive offset; destroy only, and
    then last, after a failed set-seed or set-offset.  It issues no
    other backend call, and every call is on the handle create wrote. *)
Theorem construction_call_protocol
  (c : engine_class) (args : ctor_args) (t : trace) :
  let C := ctor_create_event H c t in
  let S := ctor_seed_event H c args t in
  let O := ctor_offset_event H c args t in
  let g := ctor_handle H c t in
  let evs := issued (engine_ctor H c args) t in
  ((evs = [C] /\ ev_status C <> ok) \/
   (evs = [C; S] /\ ev_status C = ok /\ ev_status S = ok /\
    offset_argument args <= 0) \/
   (evs = [C; S; O] /\ ev_status C = ok /\ ev_status S = ok /\
    ev_status O = ok /\ offset_argument args > 0) \/
   (exists sd, evs = [C; S; ev_destroy_generator g sd] /\
    ev_status C = ok /\ ev_status S <> ok) \/
   (exists sd, evs = [C; S; O; ev_destroy_generator g sd] /\
    ev_status C = ok /\ ev_status S = ok /\ ev_status O <> ok /\
    offset_argument args > 0)) /\
  create_calls evs = [GeneratorType H c] /\
  Forall (fun e => ev_generator e = g) evs.
Proof.
  intros C S O g evs.
  destruct (engine_ctor_cases c args t)
    as [(Nc & E) | [(Ec & Ns & sd & E) | [(Ec & Es & P & E)
       | [(Ec & Es & P & Eo & E) | (Ec & Es & P & No & sd & E)]]]];
    apply (f_equal snd) in E; cbn [snd] in E;
    apply issued_app in E; subst evs; rewrite E;
    (split; [|split; [reflexivity | repeat constructor]]).
  - left. now split.
  - right; right; right; left. exists sd. now repeat split.
  - right; left. now repeat split.
  - right; right; left. now repeat split.
  - right; right; right; right. exists sd. now repeat split.
Qed.

(** X7: The constructor returns exactly when every backend call it makes
    succeeds; the engine it returns holds the handle create wrote, which
    is then a backend resource, and no destroy call was issued. *)
Theorem construction_returns_iff_all_calls_succeed
  (c : engine_class) (args : ctor_args) (t : trace) :
  ((exists this, result (engine_ctor H c args) t = Returned this) <->
   ctor_create_status H c t = ok /\
   ctor_seed_status H c args t = ok /\
   (offset_argument args > 0 -> ctor_offset_status H c args t = ok)) /\
  (forall this,
     result (engine_ctor H c args) t = Returned this ->
     m_generator this = ctor_handle H c t /\
     In (ctor_handle H c t) (resources ok (snd (engine_ctor H c args t))) /\
     destroy_calls (issued (engine_ctor H c args) t) = [] /\
     Forall (fun e => ev_status e = ok) (issued (engine_ctor H c args) t)).
Proof.
  unfold result.
  destruct (engine_ctor_cases c args t)
    as [(Nc & E) | [(Ec & Ns & sd & E) | [(Ec & Es & P & E)
       | [(Ec & Es & P & Eo & E) | (Ec & Es & P & No & sd & E)]]]];
    pose proof (issued_app _ _ _ (f_equal snd E)) as I;
    rewrite E, I; cbn [fst snd]; split.
  - split; [intros [this X]; discriminate X | intros (X & _); contradiction].
  - intros this X. discriminate X.
  - split; [intros [this X]; destruct (sd =? ok); discriminate X
           | intros (_ & X & _); contradiction].
  - intros this X. destruct (sd =? ok); discriminate X.
  - split; [intros _; repeat split; auto; lia | intros _; eexists; reflexivity].
  - intros this X. injection X as <-.
    split; [reflexivity|]. split; [|split; [reflexivity|]].
    + rewrite resources_app. unfold ctor_create_event, ctor_seed_event.
      cbn. apply Z.eqb_eq in Ec. rewrite Ec. now left.
    + repeat constructor; assumption.
  - split; [intros _; repeat split; auto | intros _; eexists; reflexivity].
  - intros this X. injection X as <-.
    split; [reflexivity|]. split; [|split; [reflexivity|]].
    + rewrite resources_app.
      unfold ctor_create_event, ctor_seed_event, ctor_offset_event.
      cbn. apply Z.eqb_eq in Ec. rewrite Ec. now left.
    + repeat constructor; assumption.
  - split; [intros [this X]; destruct (sd =? ok); discriminate X|].
    intros (_ & _ & X). specialize (X P). contradiction.
  - intros this X. destruct (sd =? ok); discriminate X.
Qed.

(** X8: An error thrown by the constructor carries the status of the first
    backend call that failed: every call before it succeeded, it is not
    the destroy call, and the only call after it, if any, is a destroy
    of the created handle that succeeded. *)
Theorem construction_error_is_first_failure
  (c : engine_class) (args : ctor_args) (t : trace) (e : error) :
  result (engine_ctor H c args) t = Thrown e ->
  exists pre ev post,
    issued (engine_ctor H c args) t = (pre ++ ev :: post)%list /\
    Forall (fun x => ev_status x = ok) pre /\
    ev_status ev <> ok /\
    e = error_ctor (ev_status ev) /\
    is_destroy ev = false /\
    (post = [] \/ post = [ev_destroy_generator (ctor_handle H c t) ok]).
Proof.
  unfold result.
  destruct (engine_ctor_cases c args t)
    as [(Nc & E) | [(Ec & Ns & sd & E) | [(Ec & Es & P & E)
       | [(Ec & Es & P & Eo & E) | (Ec & Es & P & No & sd & E)]]]];
    pose proof (issued_app _ _ _ (f_equal snd E)) as I;
    rewrite E, I; cbn [fst snd]; intro X; try discriminate X.
  - injection X as <-.
    exists [], (ctor_create_event H c t), [].
    repeat split; auto.
  - destruct (Z.eqb_spec sd ok) as [Ed|Nd]; [|discriminate X].
    injection X as <-. subst sd.
    exists [ctor_create_event H c t], (ctor_seed_event H c args t),
      [ev_destroy_generator (ctor_handle H c t) ok].
    repeat split; auto.
  - destruct (Z.eqb_spec sd ok) as [Ed|Nd]; [|discriminate X].
    injection X as <-. subst sd.
    exists [ctor_create_event H c t; ctor_seed_event H c args t],
      (ctor_offset_event H c args t),
      [ev_destroy_generator (ctor_handle H c t) ok].
    repeat split; auto.
Qed.

(** X9: An engine that was constructed and is then destroyed: destroy is
    issued once, after the construction's calls and on the engine's
    handle, and a handle that was not a backend resource before the
    construction is not one after the destruction. *)
Theorem construct_then_destroy_balances
  (c : engine_class) (args : ctor_args) (t t' : trace) (this : rng_engine) :
  engine_ctor H c args t = (Returned this, t') ->
  issued (x <- engine_ctor H c args ;; engine_dtor H c x) t =
    (issued (engine_ctor H c args) t ++
     [ev_destroy_generator (m_generator this)
        (rocrand_destroy_generator H t' (m_generator this))])%list /\
  destroy_calls (issued (x <- engine_ctor H c args ;; engine_dtor H c x) t) =
    [m_generator this] /\
  (~ In (m_generator this) (resources ok t) ->
   resources ok (snd ((x <- engine_ctor H c args ;; engine_dtor H c x) t)) =
     resources ok t).
Proof.
  intro R.
  assert ((x <- engine_ctor H c args ;; engine_dtor H c x) t =
            (if rocrand_destroy_generator H t' (m_generator this) =? ok
             then Returned tt else Terminated,
             (t' ++ [ev_destroy_generator (m_generator this)
                       (rocrand_destroy_generator H t' (m_generator this))])
             %list)) as B.
  { unfold bind. rewrite R. unfold engine_dtor, prng_engine_dtor.
    now rewrite rng_engine_dtor_run. }
  destruct (engine_ctor_cases c args t)
    as [(Nc & E) | [(Ec & Ns & sd & E) | [(Ec & Es & P & E)
       | [(Ec & Es & P & Eo & E) | (Ec & Es & P & No & sd & E)]]]];
    rewrite R in E; try discriminate E;
    try (destruct (sd =? ok); discriminate E);
    injection E as -> ->; cbn [m_generator] in *;
    pose proof (issued_app _ _ _ (f_equal snd R)) as I;
    rewrite <- app_assoc in B;
    pose proof (issued_app _ _ _ (f_equal snd B)) as J;
    rewrite I, J, B; cbn [snd];
    (split; [reflexivity|]); (split; [reflexivity|]);
    intro Fresh; rewrite resources_app;
    unfold ctor_create_event, ctor_seed_event, ctor_offset_event;
    apply Z.eqb_eq in Ec; cbn [app fold_left resources_step];
    rewrite Ec; cbn [remove];
    (destruct (Z.eq_dec (ctor_handle H c t) (ctor_handle H c t))
      as [_|X]; [|contradiction]);
    now apply notin_remove.
Qed.

End Lifecycle.

(** ** Sequences of member calls on one engine *)

Section Members.

Variable H : rocrand_h.

Local Abbreviation ok := (ROCRAND_STATUS_SUCCESS H).

(** Every member call is one backend call on the engine's handle, which
    is neither create nor destroy. *)
Lemma engine_member_run_shape (this : rng_engine) (m : engine_member)
  (t : trace) :
  exists ev,
    engine_member_run H this m t =
      (if ev_status ev =? ok
       then Returned tt
       else Thrown (error_ctor (ev_status ev)),
       (t ++ [ev])%list) /\
    ev_generator ev = m_generator this /\
    is_create ev = false /\ is_destroy ev = false.
Proof.
  destruct m as [v|v|v|d o n|R d o n|R d o n]; try destruct R;
    cbn [engine_member_run];
    unfold stream, seed, offset, uniform_int_distribution_call,
      uniform_real_distribution_call, normal_distribution_call,
      uniform_real_distribution_generate, normal_distribution_generate,
      bind, call_set_stream, call_set_seed, call_set_offset, call_generate,
      call_generate_uniform, call_generate_uniform_double,
      call_generate_normal, call_generate_normal_double;
    cbn zeta; rewrite throw_unless_success_run;
    match goal with
    | |- exists ev, (_, (_ ++ [?e])%list) = _ /\ _ => exists e
    end;
    (split; [reflexivity|]); repeat split.
Qed.

(** Calls other than create and destroy leave the resources alone. *)
Lemma resources_frame (live : list rocrand_generator) (evs : trace) :
  Forall (fun e => is_create e = false /\ is_destroy e = false) evs ->
  fold_left (resources_step ok) evs live = live.
Proof.
  induction 1 as [|e evs [C D] _ IH]; [reflexivity|].
  cbn [fold_left]. destruct e; cbn in *; try discriminate; exact IH.
Qed.

(** A sequence of member calls, call by call: the calls issued are on
    the engine's handle and are neither create nor destroy; either all
    of them succeeded, one per member call, and the sequence returned, or
    the last one failed, all before it succeeded, and the sequence threw
    the error of that status. *)
Lemma engine_members_run_shape (this : rng_engine)
  (ms : list engine_member) :
  forall t, exists evs,
    snd (engine_members_run H this ms t) = (t ++ evs)%list /\
    Forall (fun e => ev_generator e = m_generator this /\
                     is_create e = false /\ is_destroy e = false) evs /\
    ((result (engine_members_run H this ms) t = Returned tt /\
      Forall (fun e => ev_status e = ok) evs /\
      List.length evs = List.length ms) \/
     (exists pre ev,
        evs = (pre ++ [ev])%list /\
        Forall (fun e => ev_status e = ok) pre /\
        ev_status ev <> ok /\
        result (engine_members_run H this ms) t =
          Thrown (error_ctor (ev_status ev)) /\
        (List.length evs <= List.length ms)%nat)).
Proof.
  induction ms as [|m ms IH]; intro t.
  - exists []. cbn. rewrite app_nil_r. split; [reflexivity|].
    split; [constructor|]. left. repeat split. constructor.
  - destruct (engine_member_run_shape this m t) as (ev & E & G & NC & ND).
    unfold result in *. cbn [engine_members_run]. unfold bind. rewrite E.
    destruct (Z.eqb_spec (ev_status ev) ok) as [S|F].
    + destruct (IH (t ++ [ev])%list) as (evs & T & A & Cases).
      exists (ev :: evs). rewrite T, <- app_assoc. split; [reflexivity|].
      split; [constructor; auto|].
      destruct Cases as [(R & Ok & L) | (pre & last & -> & Ok & Fl & R & L)].
      * left. split; [exact R|]. split; [constructor; auto|].
        cbn. now rewrite L.
      * right. exists (ev :: pre), last.
        split; [reflexivity|]. split; [constructor; auto|].
        split; [exact Fl|]. split; [exact R|]. cbn in *. lia.
    + exists [ev]. split; [reflexivity|]. split; [repeat constructor; auto|].
      right. exists [], ev. repeat split; auto. cbn. lia.
Qed.

(** X10: Whatever member functions are called on an engine and whatever
    distributions are applied to it, every backend call that results
    carries the engine's own handle. *)
Theorem members_use_engine_handle (this : rng_engine)
  (ms : list engine_member) (t : trace) :
  Forall (fun e => ev_generator e = m_generator this)
    (issued (engine_members_run H this ms) t).
Proof.
  destruct (engine_members_run_shape this ms t) as (evs & T & A & _).
  rewrite (issued_app _ _ _ T).
  eapply Forall_impl; [|exact A]. now intros e (G & _).
Qed.

(** X11: A sequence of member calls stops at the first backend failure: at
    most one backend call per member call is issued, all calls but the
    last succeeded, the sequence returns exactly when all calls
    succeeded and then every member call was made, and otherwise it
    throws an error carrying the status of the last call.  It never ends
    the program. *)
Theorem members_stop_at_first_failure (this : rng_engine)
  (ms : list engine_member) (t : trace) :
  let evs := issued (engine_members_run H this ms) t in
  (List.length evs <= List.length ms)%nat /\
  Forall (fun e => ev_status e = ok) (removelast evs) /\
  (result (engine_members_run H this ms) t = Returned tt <->
   Forall (fun e => ev_status e = ok) evs) /\
  (result (engine_members_run H this ms) t = Returned tt ->
   List.length evs = List.length ms) /\
  (forall e,
     result (engine_members_run H this ms) t = Thrown e ->
     exists pre ev,
       evs = (pre ++ [ev])%list /\ ev_status ev <> ok /\
       e = error_ctor (ev_status ev)) /\
  result (engine_members_run H this ms) t <> Terminated.
Proof.
  intro evs. subst evs.
  destruct (engine_members_run_shape this ms t) as (evs & T & _ & Cases).
  rewrite (issued_app _ _ _ T).
  destruct Cases as [(R & Ok & L) | (pre & ev & -> & Ok & F & R & L)];
    rewrite R.
  - split; [lia|]. split.
    { clear -Ok. induction Ok as [|e l Oe Ol IH]; [constructor|].
      cbn. destruct l; [constructor|]. constructor; auto. }
    split; [split; auto|]. split; [auto|].
    split; [intros e X; discriminate X | discriminate].
  - split; [exact L|]. rewrite removelast_last. split; [exact Ok|].
    split.
    { split; [intro X; discriminate X|].
      intro A. apply Forall_app in A as [_ A].
      inversion A; subst. contradiction. }
    split; [intro X; discriminate X|].
    split; [|discriminate].
    intros e X. injection X as <-. exists pre, ev. repeat split; auto.
Qed.

(** X12: Member calls on a constructed engine never create or release a
    backend resource, whether they return or throw: only the
    constructor and the destructor do. *)
Theorem members_keep_resources (this : rng_engine)
  (ms : list engine_member) (t : trace) :
  resources ok (snd (engine_members_run H this ms t)) = resources ok t /\
  create_calls (issued (engine_members_run H this ms) t) = [] /\
  destroy_calls (issued (engine_members_run H this ms) t) = [].
Proof.
  destruct (engine_members_run_shape this ms t) as (evs & T & A & _).
  rewrite (issued_app _ _ _ T), T, resources_app.
  split; [|split].
  - apply resources_frame. eapply Forall_impl; [|exact A].
    now intros e (_ & C & D).
  - clear -A. induction A as [|e l (_ & C & _) _ IH]; [reflexivity|].
    destruct e; cbn in *; try discriminate; exact IH.
  - clear -A. induction A as [|e l (_ & _ & D) _ IH]; [reflexivity|].
    destruct e; cbn in *; try discriminate; exact IH.
Qed.

End Members.

(** ** An engine in a scope *)

Lemma destroy_calls_app (a b : trace) :
  destroy_calls (a ++ b) = (destroy_calls a ++ destroy_calls b)%list.
Proof.
  induction a as [|e a IH]; [reflexivity|].
  destruct e; cbn; rewrite IH; reflexivity.
Qed.

Lemma destroy_calls_none (evs : trace) :
  Forall (fun e => is_destroy e = false) evs -> destroy_calls evs = [].
Proof.
  induction 1 as [|e l D _ IH]; [reflexivity|].
  destruct e; cbn in *; try discriminate; exact IH.
Qed.

Section Scope.

Variable H : rocrand_h.

Local Abbreviation ok := (ROCRAND_STATUS_SUCCESS H).

(** Leaving the scope of a constructed engine: the member calls, then
    one destroy. *)
Lemma scope_exit (c : engine_class) (this : rng_engine)
  (ms : list engine_member) (t : trace) :
  exists evs sd o,
    (unwinding (engine_dtor H c this) (engine_members_run H this ms) ;;
     engine_dtor H c this) t =
      (o, (t ++ evs ++ [ev_destroy_generator (m_generator this) sd])%list) /\
    Forall (fun e => is_create e = false /\ is_destroy e = false) evs.
Proof.
  destruct (engine_members_run_shape H this ms t) as (evs & T & A & Cases).
  exists evs,
    (rocrand_destroy_generator H (t ++ evs) (m_generator this)).
  assert (Forall (fun e => is_create e = false /\ is_destroy e = false) evs)
    as A' by (eapply Forall_impl; [|exact A]; now intros e (_ & X)).
  unfold bind, unwinding, engine_dtor, prng_engine_dtor.
  unfold result in Cases.
  destruct (engine_members_run H this ms t) as [o t'] eqn:E.
  cbn [fst snd] in T, Cases. subst t'.
  destruct o as [[]|e|]; rewrite ?rng_engine_dtor_run; cbn zeta.
  - rewrite <- app_assoc. eexists. split; [reflexivity|exact A'].
  - destruct (_ =? _); rewrite <- app_assoc;
      eexists; (split; [reflexivity|exact A']).
  - exfalso.
    destruct Cases as [(R & _) | (pre & ev & _ & _ & _ & R & _)];
      discriminate R.
Qed.

(** X13: An engine in automatic storage never leaks: whatever the backend
    answers and whatever member calls are made, and whether the scope is
    left normally or by an exception, a create that succeeded is matched
    by exactly one destroy of the handle it wrote, a create that failed
    by none, and a handle that was not a backend resource before is not
    one afterwards. *)
Theorem scope_releases_exactly_once (c : engine_class) (args : ctor_args)
  (ms : list engine_member) (t : trace) :
  create_calls (issued (engine_scope H c args ms) t) = [GeneratorType H c] /\
  destroy_calls (issued (engine_scope H c args ms) t) =
    (if ctor_create_status H c t =? ok then [ctor_handle H c t] else []) /\
  (~ In (ctor_handle H c t) (resources ok t) ->
   resources ok (snd (engine_scope H c args ms t)) = resources ok t).
Proof.
  assert (forall live,
             ~ In (ctor_handle H c t) live ->
             remove Z.eq_dec (ctor_handle H c t) (ctor_handle H c t :: live)
             = live) as Rm.
  { intros live F. cbn.
    destruct (Z.eq_dec (ctor_handle H c t) (ctor_handle H c t))
      as [_|X]; [|contradiction].
    now apply notin_remove. }
  assert (forall evs,
             Forall (fun e => is_create e = false /\ is_destroy e = false)
               evs -> create_calls evs = []) as NoCreate.
  { induction 1 as [|e l (C & _) _ IH]; [reflexivity|].
    destruct e; cbn in *; try discriminate; exact IH. }
  assert (forall a b, create_calls (a ++ b) =
                        (create_calls a ++ create_calls b)%list) as CreateApp.
  { induction a as [|e a IH]; intro b; [reflexivity|].
    destruct e; cbn; rewrite IH; reflexivity. }
  assert (exists new o,
             engine_scope H c args ms t = (o, (t ++ new)%list) /\
             create_calls new = [GeneratorType H c] /\
             destroy_calls new =
               (if ctor_create_status H c t =? ok
                then [ctor_handle H c t] else []) /\
             (~ In (ctor_handle H c t) (resources ok t) ->
              fold_left (resources_step ok) new (resources ok t) =
                resources ok t)) as (new & o & E & Cr & De & Re).
  { unfold engine_scope. unfold bind at 1.
    destruct (engine_ctor_cases H c args t)
      as [(Nc & E) | [(Ec & Ns & sd & E) | [(Ec & Es & P & E)
         | [(Ec & Es & P & Eo & E) | (Ec & Es & P & No & sd & E)]]]];
      rewrite E.
    - (* create failed *)
      assert ((ctor_create_status H c t =? ok) = false) as B
        by now apply Z.eqb_neq.
      rewrite B. do 2 eexists. split; [reflexivity|].
      unfold ctor_create_event. cbn. rewrite B. now repeat split.
    - (* set-seed failed *)
      assert ((ctor_create_status H c t =? ok) = true) as B
        by now apply Z.eqb_eq.
      rewrite B. destruct (sd =? ok);
        (do 2 eexists; split; [reflexivity|]);
        unfold ctor_create_event, ctor_seed_event;
        cbn [create_calls destroy_calls fold_left resources_step];
        rewrite B; (split; [reflexivity|]); (split; [reflexivity|]);
        apply Rm.
    - (* constructed, no offset *)
      assert ((ctor_create_status H c t =? ok) = true) as B
        by now apply Z.eqb_eq.
      rewrite B.
      destruct (scope_exit c {| m_generator := ctor_handle H c t |} ms
                  (t ++ [ctor_create_event H c t;
                         ctor_seed_event H c args t]))
        as (evs & sd & o & X & A).
      cbn [m_generator] in X. rewrite X, <- app_assoc.
      do 2 eexists. split; [reflexivity|].
      unfold ctor_create_event, ctor_seed_event.
      cbn [app create_calls destroy_calls fold_left resources_step].
      rewrite B, CreateApp, destroy_calls_app, fold_left_app,
        (NoCreate _ A), (resources_frame H _ evs A),
        (destroy_calls_none evs)
        by (eapply Forall_impl; [|exact A]; now intros e (_ & D)).
      split; [reflexivity|]. split; [reflexivity|]. apply Rm.
    - (* constructed, with offset *)
      assert ((ctor_create_status H c t =? ok) = true) as B
        by now apply Z.eqb_eq.
      rewrite B.
      destruct (scope_exit c {| m_generator := ctor_handle H c t |} ms
                  (t ++ [ctor_create_event H c t;
                         ctor_seed_event H c args t;
                         ctor_offset_event H c args t]))
        as (evs & sd & o & X & A).
      cbn [m_generator] in X. rewrite X, <- app_assoc.
      do 2 eexists. split; [reflexivity|].
      unfold ctor_create_event, ctor_seed_event, ctor_offset_event.
      cbn [app create_calls destroy_calls fold_left resources_step].
      rewrite B, CreateApp, destroy_calls_app, fold_left_app,
        (NoCreate _ A), (resources_frame H _ evs A),
        (destroy_calls_none evs)
        by (eapply Forall_impl; [|exact A]; now intros e (_ & D)).
      split; [reflexivity|]. split; [reflexivity|]. apply Rm.
    - (* set-offset failed *)
      assert ((ctor_create_status H c t =? ok) = true) as B
        by now apply Z.eqb_eq.
      rewrite B. destruct (sd =? ok);
        (do 2 eexists; split; [reflexivity|]);
        unfold ctor_create_event, ctor_seed_event, ctor_offset_event;
        cbn [create_calls destroy_calls fold_left resources_step];
        rewrite B; (split; [reflexivity|]); (split; [reflexivity|]);
        apply Rm. }
  rewrite (issued_app _ _ _ (f_equal snd E)), E. cbn [snd].
  rewrite resources_app. auto.
Qed.

End Scope.

(** ** Further concrete runs *)

Example scope_with_failing_generation :
  engine_scope (scripted 0 0 0 0 0 103) philox4x32_10_engine (seed_arg 1)
    [do_stream 0; do_uniform_int mk_uniform_int_distribution 8192 16;
     do_seed 5] [] =
    (Thrown (error_ctor 103),
     [ev_create_generator 404 4096 0; ev_set_seed 4096 1 0;
      ev_set_stream 4096 0 0; ev_generate 4096 8192 16 103;
      ev_destroy_generator 4096 0]).
Proof. reflexivity. Qed.

Example scope_left_normally :
  engine_scope working xorwow_engine no_args
    [do_uniform_real Float mk_uniform_real_distribution 8192 16;
     do_uniform_real Double mk_uniform_real_distribution 8192 8] [] =
    (Returned tt,
     [ev_create_generator 401 4096 0; ev_set_seed 4096 0 0;
      ev_generate_uniform 4096 8192 16 0;
      ev_generate_uniform_double 4096 8192 8 0;
      ev_destroy_generator 4096 0]).
Proof. reflexivity. Qed.

(** A set-offset that fails with 104, followed by a destroy that
    succeeds. *)
Lemma construction_error_is_first_failure_witness :
  result
    (engine_ctor (scripted 0 0 0 0 104 0) xorwow_engine
       (seed_offset_args 1 5)) [] = Thrown (error_ctor 104) /\
  exists pre ev post,
    issued
      (engine_ctor (scripted 0 0 0 0 104 0) xorwow_engine
         (seed_offset_args 1 5)) [] = (pre ++ ev :: post)%list /\
    Forall (fun x => ev_status x = 0) pre /\
    ev_status ev <> 0 /\
    error_ctor 104 = error_ctor (ev_status ev) /\
    is_destroy ev = false /\
    (post = [] \/ post = [ev_destroy_generator 4096 0]).
Proof.
  split; [reflexivity|].
  exact (construction_error_is_first_failure (scripted 0 0 0 0 104 0)
           xorwow_engine (seed_offset_args 1 5) [] (error_ctor 104) eq_refl).
Defined.

(** A Philox engine constructed with seed 42 and destroyed. *)
Lemma construct_then_destroy_balances_witness :
  engine_ctor working philox4x32_10_engine (seed_arg 42) [] =
    (Returned {| m_generator := 4096 |},
     [ev_create_generator 404 4096 0; ev_set_seed 4096 42 0]) /\
  destroy_calls
    (issued
       (x <- engine_ctor working philox4x32_10_engine (seed_arg 42) ;;
        engine_dtor working philox4x32_10_engine x) []) = [4096] /\
  resources 0
    (snd
       ((x <- engine_ctor working philox4x32_10_engine (seed_arg 42) ;;
         engine_dtor working philox4x32_10_engine x) [])) = [].
Proof.
  pose proof
    (construct_then_destroy_balances working philox4x32_10_engine
       (seed_arg 42) []
       [ev_create_generator 404 4096 0; ev_set_seed 4096 42 0]
       {| m_generator := 4096 |} eq_refl) as (_ & D & R).
  split; [reflexivity|]. split; [exact D|].
  apply R. intros [].
Defined.

(** ** Error propagation of every operation *)

Section EveryOperation.

Variable H : rocrand_h.

Local Abbreviation ok := (ROCRAND_STATUS_SUCCESS H).

(** C1, as the code has it: every member function that wraps one
    backend call (the construction of the handle base class, stream,
    seed, offset, and the call operator of each distribution at each
    element type) throws an error whose [error_code] is the status the
    backend returned when that status is not success, and returns when
    it is.  The constructor of an engine makes up to three such calls:
    it returns when all of them succeed; it throws an error carrying
    create's status when create fails; and when set-seed, or set-offset
    for a positive offset, fails, it issues destroy on the created
    handle and throws an error carrying the failing status if that
    destroy call returns success. *)
Theorem status_is_propagated_by_every_operation
  (GeneratorType : rocrand_rng_type) (this g : rng_engine)
  (stream_value : hipStream_t) (seed_value : seed_type)
  (offset_value : offset_type) (output : pointer) (size : size_t)
  (ui : uniform_int_distribution)
  (urf : uniform_real_distribution Float)
  (urd : uniform_real_distribution Double)
  (nf : normal_distribution Float) (nd : normal_distribution Double)
  (c : engine_class) (args : ctor_args) (t : trace) :
  wraps ok (rng_engine_ctor H GeneratorType)
    (fun t =>
       ev_create_generator GeneratorType
         (snd (rocrand_create_generator H t GeneratorType))
         (fst (rocrand_create_generator H t GeneratorType))) /\
  wraps ok (stream H this stream_value)
    (fun t =>
       ev_set_stream (m_generator this) stream_value
         (rocrand_set_stream H t (m_generator this) stream_value)) /\
  wraps ok (seed H this seed_value)
    (fun t =>
       ev_set_seed (m_generator this) seed_value
         (rocrand_set_seed H t (m_generator this) seed_value)) /\
  wraps ok (offset H this offset_value)
    (fun t =>
       ev_set_offset (m_generator this) offset_value
         (rocrand_set_offset H t (m_generator this) offset_value)) /\
  wraps ok (uniform_int_distribution_call H ui g output size)
    (fun t =>
       ev_generate (m_generator g) output size
         (rocrand_generate H t (m_generator g) output size)) /\
  wraps ok (uniform_real_distribution_call H urf g output size)
    (fun t =>
       ev_generate_uniform (m_generator g) output size
         (rocrand_generate_uniform H t (m_generator g) output size)) /\
  wraps ok (uniform_real_distribution_call H urd g output size)
    (fun t =>
       ev_generate_uniform_double (m_generator g) output size
         (rocrand_generate_uniform_double H t (m_generator g)
            output size)) /\
  wraps ok (normal_distribution_call H nf g output size)
    (fun t =>
       ev_generate_normal (m_generator g) output size
         (mean nf) (stddev nf)
         (rocrand_generate_normal H t (m_generator g) output size
            (mean nf) (stddev nf))) /\
  wraps ok (normal_distribution_call H nd g output size)
    (fun t =>
       ev_generate_normal_double (m_generator g) output size
         (mean nd) (stddev nd)
         (rocrand_generate_normal_double H t (m_generator g) output size
            (mean nd) (stddev nd))) /\
  (ctor_create_status H c t = ok ->
   ctor_seed_status H c args t = ok ->
   (offset_argument args > 0 -> ctor_offset_status H c args t = ok) ->
   exists e, result (engine_ctor H c args) t = Returned e) /\
  (ctor_create_status H c t <> ok ->
   issued (engine_ctor H c args) t = [ctor_create_event H c t] /\
   exists e,
     result (engine_ctor H c args) t = Thrown e /\
     error_code e = ctor_create_status H c t) /\
  (ctor_create_status H c t = ok ->
   ctor_seed_status H c args t <> ok ->
   exists sd,
     issued (engine_ctor H c args) t =
       [ctor_create_event H c t; ctor_seed_event H c args t;
        ev_destroy_generator (ctor_handle H c t) sd] /\
     (sd = ok ->
      exists e,
        result (engine_ctor H c args) t = Thrown e /\
        error_code e = ctor_seed_status H c args t)) /\
  (ctor_create_status H c t = ok ->
   ctor_seed_status H c args t = ok ->
   offset_argument args > 0 ->
   ctor_offset_status H c args t <> ok ->
   exists sd,
     issued (engine_ctor H c args) t =
       [ctor_create_event H c t; ctor_seed_event H c args t;
        ctor_offset_event H c args t;
        ev_destroy_generator (ctor_handle H c t) sd] /\
     (sd = ok ->
      exists e,
        result (engine_ctor H c args) t = Thrown e /\
        error_code e = ctor_offset_status H c args t)).
Proof.
  destruct (wrapping_members_propagate_status H GeneratorType this g
              stream_value seed_value offset_value output size
              ui urf urd nf nd)
    as (W1 & W2 & W3 & W4 & W5 & W6 & W7 & W8 & W9).
  do 9 (split; [assumption|]).
  unfold result.
  destruct (engine_ctor_cases H c args t)
    as [(Nc & E) | [(Ec & Ns & sd & E) | [(Ec & Es & P & E)
       | [(Ec & Es & P & Eo & E) | (Ec & Es & P & No & sd & E)]]]];
    pose proof (issued_app _ _ _ (f_equal snd E)) as I;
    rewrite E, I; cbn [fst snd];
    (split; [|split; [|split]]).
  - intros X. contradiction.
  - intros _. split; [reflexivity|]. eexists. split; reflexivity.
  - intros X. contradiction.
  - intros X. contradiction.
  - intros _ X. contradiction.
  - intros X. contradiction.
  - intros _ _. exists sd. split; [reflexivity|].
    intros ->. rewrite Z.eqb_refl. eexists. split; reflexivity.
  - intros _ X. contradiction.
  - intros _ _ _. eexists. reflexivity.
  - intros X. contradiction.
  - intros _ X. contradiction.
  - intros _ _ X. lia.
  - intros _ _ _. eexists. reflexivity.
  - intros X. contradiction.
  - intros _ X. contradiction.
  - intros _ _ _ X. contradiction.
  - intros _ _ X. specialize (X P). contradiction.
  - intros X. contradiction.
  - intros _ X. contradiction.
  - intros _ _ _ _. exists sd. split; [reflexivity|].
    intros ->. rewrite Z.eqb_refl. eexists. split; reflexivity.
Qed.

End EveryOperation.

(** C1 fails as stated: during the construction of an engine set-seed
    returns 101, which is not success, and destroy returns 102; the
    program is terminated and no error carrying 101 is thrown. *)
Lemma failed_seed_and_release_throw_no_error :
  ctor_create_status (scripted 0 102 0 101 0 0) philox4x32_10_engine [] =
    ROCRAND_STATUS_SUCCESS (scripted 0 102 0 101 0 0) /\
  ctor_seed_status (scripted 0 102 0 101 0 0) philox4x32_10_engine
    (seed_arg 1) [] = 101 /\
  101 <> ROCRAND_STATUS_SUCCESS (scripted 0 102 0 101 0 0) /\
  result
    (engine_ctor (scripted 0 102 0 101 0 0) philox4x32_10_engine (seed_arg 1))
    [] = Terminated /\
  ~ (exists e,
       result
         (engine_ctor (scripted 0 102 0 101 0 0) philox4x32_10_engine
            (seed_arg 1)) [] = Thrown e /\
       error_code e = 101).
Proof.
  repeat split; try discriminate.
  intros (e & X & _). discriminate X.
Qed.

(** C1 at a backend whose set-seed fails with 101 and whose other calls
    succeed: [seed] on a handle throws 101, a generation call returns,
    and the constructor destroys the handle and throws 101. *)
Lemma status_is_propagated_by_every_operation_witness :
  wraps 0 (seed (scripted 0 0 0 101 0 0) {| m_generator := 4096 |} 7)
    (fun _ => ev_set_seed 4096 7 101) /\
  wraps 0
    (uniform_int_distribution_call (scripted 0 0 0 101 0 0)
       mk_uniform_int_distribution {| m_generator := 4096 |} 8192 16)
    (fun _ => ev_generate 4096 8192 16 0) /\
  exists e,
    result (engine_ctor (scripted 0 0 0 101 0 0) xorwow_engine no_args) [] =
      Thrown e /\
    error_code e = 101.
Proof.
  pose proof
    (status_is_propagated_by_every_operation (scripted 0 0 0 101 0 0) 404
       {| m_generator := 4096 |} {| m_generator := 4096 |} 0 7 0 8192 16
       mk_uniform_int_distribution mk_uniform_real_distribution
       mk_uniform_real_distribution
       (mk_normal_distribution (param_type_ctor None None))
       (mk_normal_distribution (param_type_ctor None None))
       xorwow_engine no_args [])
    as (_ & _ & S & _ & G & _ & _ & _ & _ & _ & _ & F & _).
  split; [exact S|]. split; [exact G|].
  assert (101 <> 0) as N by discriminate.
  destruct (F eq_refl N) as (sd & I & T).
  injection I as <-.
  exact (T eq_refl).
Defined.
